(** * Double pendulum and double pendulum on a cart

    A shallow embedding of [models/double_pendulum.py] and
    [models/double_pendulum_on_cart.py].  Python and numpy floats are IEEE
    binary64 numbers, modelled by Rocq's primitive floats; a Python exception
    is an [Err] of the [res] monad, and a method that mutates [self] returns
    the updated object together with the exception it raised, if any. *)

From Stdlib Require Import ZArith List Bool Floats Lia.
From Stdlib Require String DecimalString DecimalNat.
Import ListNotations.
Import String.StringSyntax.
#[local] Set Warnings "-inexact-float".

(** ** Python exceptions and the error monad *)

(** [FileNotFoundError] is what [open] raises on a path whose directory does
    not exist; [OSError] stands for its other failures. *)
Inductive exn := ZeroDivisionError | IndexError | ValueError | OverflowError
               | FileNotFoundError | OSError.

Inductive res (A : Type) : Type :=
| Ok (a : A)
| Err (e : exn).
Arguments Ok {A} a.
Arguments Err {A} e.

Definition bind {A B} (m : res A) (f : A -> res B) : res B :=
  match m with Ok a => f a | Err e => Err e end.

Notation "'let*' x ':=' m 'in' f" := (bind m (fun x => f))
  (at level 200, x name, m at level 100, f at level 200).

(** ** Python and numpy primitives on floats *)

(** Conversion of a Python/numpy integer to a double (round to nearest). *)
Definition float_of_Z (z : Z) : float :=
  SF2Prim (binary_normalize prec emax z 0%Z false).

(** Python's [x / y] on two Python floats raises on a zero divisor; numpy's
    division (an operand is a [numpy.float64]) never raises. *)
Definition py_div (x y : float) : res float :=
  if (y =? 0)%float then Err ZeroDivisionError else Ok (x / y)%float.

(** [int(f)]: truncation toward zero; [ValueError] on NaN, [OverflowError]
    on an infinity. *)
Definition py_int (f : float) : res Z :=
  match Prim2SF f with
  | S754_zero _ => Ok 0%Z
  | S754_finite s m e =>
      let z := if (0 <=? e)%Z then Z.shiftl (Zpos m) e
               else Z.shiftr (Zpos m) (- e) in
      Ok (if s then Z.opp z else z)
  | S754_infinity _ => Err OverflowError
  | S754_nan => Err ValueError
  end.

(** [math.ceil] of a finite double, as numpy's [_safe_ceil_to_intp]. *)
Definition py_ceil (f : float) : res Z :=
  match Prim2SF f with
  | S754_zero _ => Ok 0%Z
  | S754_finite s m e =>
      if (0 <=? e)%Z then
        let z := Z.shiftl (Zpos m) e in Ok (if s then Z.opp z else z)
      else
        let q := Z.shiftr (Zpos m) (- e) in
        let exact := (Z.shiftl q (- e) =? Zpos m)%Z in
        Ok (if s then Z.opp q else if exact then q else (q + 1)%Z)
  | S754_infinity _ => Err ValueError
  | S754_nan => Err ValueError
  end.


(** Indexing a list or a 1-d array with a Python integer: negative indices
    count from the end; out of range is an [IndexError]. *)
Definition py_index {A} (l : list A) (k : Z) : res A :=
  let n := Z.of_nat (length l) in
  let k' := if (k <? 0)%Z then (n + k)%Z else k in
  if ((0 <=? k') && (k' <? n))%Z then
    match nth_error l (Z.to_nat k') with Some a => Ok a | None => Err IndexError end
  else Err IndexError.

(** [np.arange(0, stop, step)] with Python-float bounds: the length is the
    ceiling of [(stop - 0) / step] (a zero step raises [ZeroDivisionError],
    a non-finite length [ValueError], a non-positive one gives an empty
    array); element [i] is filled as [start + i * delta] with
    [delta = (start + step) - start]. *)
Definition arange (stop step : float) : res (list float) :=
  let* q := py_div (stop - 0)%float step in
  let* n := py_ceil q in
  let delta := ((0 + step) - 0)%float in
  Ok (map (fun i => (0 + float_of_Z (Z.of_nat i) * delta)%float)
          (seq 0 (Z.to_nat n))).

(** [np.radians]: multiplication by the double nearest to pi/180. *)
Definition deg2rad (x : float) : float :=
  (x * (3.141592653589793 / 180))%float.

(** [x ** 2] on a double. *)
Definition sq (x : float) : float := (x * x)%float.

(** Elementwise [a + b] and [a * c] on 1-d float arrays of one shape. *)
Definition vadd (a b : list float) : list float :=
  map (fun '(u, v) => (u + v)%float) (combine a b).
Definition vscale (a : list float) (c : float) : list float :=
  map (fun u => (u * c)%float) a.

(** The C library's [sin] and [cos], as numpy's ufuncs call them. *)
Class Libm := { np_sin : float -> float; np_cos : float -> float }.

(** ** CSV files *)

Module Csv.

(** A row as [csv.writer.writerow] receives it: the strings of a header, or
    the floats of a data row (each written as Python's [repr] of the
    float). *)
Inductive row := Header (cells : list String.string) | Data (cells : list float).

(** A file written through [open(filename, mode='w')]: its name and the rows
    written to it, in order. *)
Definition file := (String.string * list row)%type.

End Csv.

(** ** [models/double_pendulum.py] *)

Module DP.

Record DoublePendulum := mkDP {
  L1 : float; L2 : float; M1 : float; M2 : float; G : float;
  th1 : float; w1 : float; th2 : float; w2 : float;
  t_stop : float; dt : float;
  t : list float;
  state : list float;
  y : option (list (list float))
}.

Definition set_y (p : DoublePendulum) (v : option (list (list float))) :=
  mkDP (L1 p) (L2 p) (M1 p) (M2 p) (G p) (th1 p) (w1 p) (th2 p) (w2 p)
       (t_stop p) (dt p) (t p) (state p) v.

(** [DoublePendulum.__init__] *)
Definition init (L1 L2 M1 M2 G th1 w1 th2 w2 t_stop dt : float)
  : res DoublePendulum :=
  let* t := arange t_stop dt in
  Ok (mkDP L1 L2 M1 M2 G th1 w1 th2 w2 t_stop dt t
           (map deg2rad [th1; w1; th2; w2]) None).

(** [DoublePendulum()] with its default arguments. *)
Definition init_default := init 1 1 1 1 9.8 120 0 (-10) 0 5 0.01.

(** [set_time_parameters]: [t_stop] and [dt] are assigned before
    [np.arange] runs. *)
Definition set_time_parameters (p : DoublePendulum) (ts d : float)
  : DoublePendulum * option exn :=
  let p1 := mkDP (L1 p) (L2 p) (M1 p) (M2 p) (G p) (th1 p) (w1 p) (th2 p)
                 (w2 p) ts d (t p) (state p) (y p) in
  match arange ts d with
  | Ok g => (mkDP (L1 p) (L2 p) (M1 p) (M2 p) (G p) (th1 p) (w1 p) (th2 p)
                  (w2 p) ts d g (state p) (y p), None)
  | Err e => (p1, Some e)
  end.

(** [set_initial_conditions] *)
Definition set_initial_conditions (p : DoublePendulum) (a b c d : float) :=
  mkDP (L1 p) (L2 p) (M1 p) (M2 p) (G p) a b c d (t_stop p) (dt p) (t p)
       (map deg2rad [a; b; c; d]) (y p).

(** [set_parameters] *)
Definition set_parameters (p : DoublePendulum) (L1 L2 M1 M2 G : float) :=
  mkDP L1 L2 M1 M2 G (th1 p) (w1 p) (th2 p) (w2 p) (t_stop p) (dt p) (t p)
       (state p) (y p).

Local Open Scope string_scope.

(** The header row of [save]. *)
Definition header : list String.string :=
  ["th1 (rad)"; "w1 (rad/s)"; "th2 (rad)"; "w2 (rad/s)"].

(** The loop of [save], over [i] in [range(len(self.t))]: [self.y[i]] raises
    [IndexError] past the last row of [y], and the unpacking
    [th1, w1, th2, w2 = self.y[i]] raises [ValueError] on a row that does not
    have four entries. *)
Fixpoint save_rows (ys : list (list float)) (is : list nat)
  : list Csv.row * option exn :=
  match is with
  | [] => ([], None)
  | i :: is' =>
      match py_index ys (Z.of_nat i) with
      | Err e => ([], Some e)
      | Ok [a; b; c; d] =>
          let '(rs, e) := save_rows ys is' in (Csv.Data [a; b; c; d] :: rs, e)
      | Ok _ => ([], Some ValueError)
      end
  end.

(** [save(filename)]: the test of [self.y] comes before [open], so the
    [ValueError] creates no file; otherwise the file is created (truncated),
    the header is written, then the rows, and the [with] block keeps the rows
    written before an exception of the loop. *)
Definition save (p : DoublePendulum) (filename : String.string)
  : option Csv.file * option exn :=
  match y p with
  | None => (None, Some ValueError)
  | Some ys =>
      let '(rs, e) := save_rows ys (seq 0 (length (t p))) in
      (Some (filename, Csv.Header header :: rs), e)
  end.

(** [save(filename)] with the [open] call made explicit: [open_error name]
    is the exception [open(name, mode='w')] raises, if any.  It comes after
    the test of [self.y] and creates no file; once [open] succeeds this is
    [save]. *)
Definition save_open (open_error : String.string -> option exn)
  (p : DoublePendulum) (filename : String.string)
  : option Csv.file * option exn :=
  match y p, open_error filename with
  | Some _, Some e => (None, Some e)
  | _, _ => save p filename
  end.

Local Close Scope string_scope.

Section Dynamics.
Context `{Libm}.

(** [_derivs]: [L2 / L1] is a division of Python floats. *)
Definition derivs (p : DoublePendulum) (st : list float) : res (list float) :=
  match st with
  | [s0; s1; s2; s3] =>
      let delta := (s2 - s0)%float in
      let den1 := ((M1 p + M2 p) * L1 p
                   - M2 p * L1 p * sq (np_cos delta))%float in
      let d1 := ((M2 p * L1 p * sq s1 * np_sin delta * np_cos delta
                  + M2 p * G p * np_sin s2 * np_cos delta
                  + M2 p * L2 p * sq s3 * np_sin delta
                  - (M1 p + M2 p) * G p * np_sin s0)
                 / den1)%float in
      let* r := py_div (L2 p) (L1 p) in
      let den2 := (r * den1)%float in
      let d3 := ((- M2 p * L2 p * sq s3 * np_sin delta * np_cos delta
                  + (M1 p + M2 p) * G p * np_sin s0 * np_cos delta
                  - (M1 p + M2 p) * L1 p * sq s1 * np_sin delta
                  - (M1 p + M2 p) * G p * np_sin s2)
                 / den2)%float in
      Ok [s1; d1; s3; d3]
  | _ => Err IndexError
  end.

(** The loop of [solve]: [n] Euler steps from [prev]. *)
Fixpoint euler_rows (p : DoublePendulum) (n : nat) (prev : list float)
  : res (list (list float)) :=
  match n with
  | O => Ok []
  | S n' =>
      let* d := derivs p prev in
      let r := vadd prev (vscale d (dt p)) in
      let* rs := euler_rows p n' r in
      Ok (r :: rs)
  end.

(** The array [y] that [solve] builds ([y[0] = self.state] raises on an
    empty grid). *)
Definition trajectory (p : DoublePendulum) : res (list (list float)) :=
  match t p with
  | [] => Err IndexError
  | _ :: _ =>
      let* rs := euler_rows p (length (t p) - 1) (state p) in
      Ok (state p :: rs)
  end.

(** [solve]: [self.y = y] runs once the loop is over. *)
Definition solve (p : DoublePendulum) : DoublePendulum * option exn :=
  match trajectory p with
  | Ok ys => (set_y p (Some ys), None)
  | Err e => (p, Some e)
  end.

End Dynamics.

End DP.

(** ** [models/double_pendulum_on_cart.py] *)

Module DPC.

Record DoublePendulumOnCart := mkDPC {
  L1 : float; L2 : float; M1 : float; M2 : float; Mc : float; G : float;
  x_min : float; x_max : float; f_min : float; f_max : float;
  th1 : float; w1 : float; th2 : float; w2 : float; x : float; vx : float;
  t_stop : float; dt : float;
  t : list float;
  state : list float;
  control_force : list float;
  y : option (list (list float))
}.

(** Record updates of the fields that the methods assign. *)
Definition set_y (c : DoublePendulumOnCart) v :=
  mkDPC (L1 c) (L2 c) (M1 c) (M2 c) (Mc c) (G c) (x_min c) (x_max c)
        (f_min c) (f_max c) (th1 c) (w1 c) (th2 c) (w2 c) (x c) (vx c)
        (t_stop c) (dt c) (t c) (state c) (control_force c) v.

Definition set_time (c : DoublePendulumOnCart) ts d g :=
  mkDPC (L1 c) (L2 c) (M1 c) (M2 c) (Mc c) (G c) (x_min c) (x_max c)
        (f_min c) (f_max c) (th1 c) (w1 c) (th2 c) (w2 c) (x c) (vx c)
        ts d g (state c) (control_force c) (y c).

Definition set_force_bounds (c : DoublePendulumOnCart) lo hi :=
  mkDPC (L1 c) (L2 c) (M1 c) (M2 c) (Mc c) (G c) (x_min c) (x_max c)
        lo hi (th1 c) (w1 c) (th2 c) (w2 c) (x c) (vx c)
        (t_stop c) (dt c) (t c) (state c) (control_force c) (y c).

(** [set_control_force]: the given sequence is stored as it is. *)
Definition set_control_force (c : DoublePendulumOnCart) f :=
  mkDPC (L1 c) (L2 c) (M1 c) (M2 c) (Mc c) (G c) (x_min c) (x_max c)
        (f_min c) (f_max c) (th1 c) (w1 c) (th2 c) (w2 c) (x c) (vx c)
        (t_stop c) (dt c) (t c) (state c) f (y c).

(** [np.zeros(n)] for a Python integer [n]. *)
Definition np_zeros (n : Z) : res (list float) :=
  if (n <? 0)%Z then Err ValueError else Ok (repeat 0%float (Z.to_nat n)).

(** [DoublePendulumOnCart.__init__]: the grid, then the state (radians of the
    angles, [x] and [vx] appended), then [np.zeros(int(t_stop*1/dt))]. *)
Definition init (L1 L2 M1 M2 Mc G x_min x_max f_min f_max
                 th1 w1 th2 w2 x vx t_stop dt : float)
  : res DoublePendulumOnCart :=
  let* t := arange t_stop dt in
  let state := map deg2rad [th1; w1; th2; w2] ++ [x; vx] in
  let* q := py_div (t_stop * 1)%float dt in
  let* n := py_int q in
  let* cf := np_zeros n in
  Ok (mkDPC L1 L2 M1 M2 Mc G x_min x_max f_min f_max
            th1 w1 th2 w2 x vx t_stop dt t state cf None).

(** [DoublePendulumOnCart()] with its default arguments, and with other
    time parameters. *)
Definition init_time (t_stop dt : float) :=
  init 1 1 1 1 1 9.8 (-1) 1 (-10) 10 170 0 0 0 0 0 t_stop dt.
Definition init_default := init_time 5 0.01.

(** [set_time_parameters]: the control force is left as it is. *)
Definition set_time_parameters (c : DoublePendulumOnCart) (ts d : float)
  : DoublePendulumOnCart * option exn :=
  match arange ts d with
  | Ok g => (set_time c ts d g, None)
  | Err e => (set_time c ts d (t c), Some e)
  end.

(** [np.repeat(a, k)] of a 1-d array by a Python integer. *)
Definition np_repeat (a : list float) (k : Z) : res (list float) :=
  if (k <? 0)%Z then Err ValueError
  else Ok (flat_map (fun v => repeat v (Z.to_nat k)) a).

(** [set_parameters] *)
Definition set_parameters (c : DoublePendulumOnCart)
  (L1 L2 M1 M2 Mc G x_min x_max f_min f_max : float) :=
  mkDPC L1 L2 M1 M2 Mc G x_min x_max f_min f_max
        (th1 c) (w1 c) (th2 c) (w2 c) (x c) (vx c)
        (t_stop c) (dt c) (t c) (state c) (control_force c) (y c).

(** [set_initial_conditions]: the state is rebuilt as in [__init__]. *)
Definition set_initial_conditions (c : DoublePendulumOnCart) (a b d e xx vv : float) :=
  mkDPC (L1 c) (L2 c) (M1 c) (M2 c) (Mc c) (G c) (x_min c) (x_max c)
        (f_min c) (f_max c) a b d e xx vv
        (t_stop c) (dt c) (t c) (map deg2rad [a; b; d; e] ++ [xx; vv])
        (control_force c) (y c).

Local Open Scope string_scope.

(** The header row of [save]. *)
Definition header : list String.string :=
  ["f (N)"; "th1 (rad)"; "w1 (rad/s)"; "th2 (rad)"; "w2 (rad/s)"; "x (m)";
   "vx (m/s)"].

(** The loop of [save], over [i] in [range(len(self.t))]: the row is
    [np.append([self.control_force[i]], self.y[i])], the force looked up
    first. *)
Fixpoint save_rows (cf : list float) (ys : list (list float)) (is : list nat)
  : list Csv.row * option exn :=
  match is with
  | [] => ([], None)
  | i :: is' =>
      match (let* f := py_index cf (Z.of_nat i) in
             let* r := py_index ys (Z.of_nat i) in Ok (f :: r)) with
      | Err e => ([], Some e)
      | Ok r => let '(rs, e) := save_rows cf ys is' in (Csv.Data r :: rs, e)
      end
  end.

(** [save(filename)], as for the pendulum. *)
Definition save (c : DoublePendulumOnCart) (filename : String.string)
  : option Csv.file * option exn :=
  match y c with
  | None => (None, Some ValueError)
  | Some ys =>
      let '(rs, e) := save_rows (control_force c) ys (seq 0 (length (t c))) in
      (Some (filename, Csv.Header header :: rs), e)
  end.

(** [save(filename)] with the [open] call made explicit, as for the
    pendulum. *)
Definition save_open (open_error : String.string -> option exn)
  (c : DoublePendulumOnCart) (filename : String.string)
  : option Csv.file * option exn :=
  match y c, open_error filename with
  | Some _, Some e => (None, Some e)
  | _, _ => save c filename
  end.

Local Close Scope string_scope.

Section Random.
(** numpy's global generator as explicit state: [uniform g lo hi n] draws
    [n] samples and returns the advanced generator. *)
Context {Rng : Type} (uniform : Rng -> float -> float -> nat -> list float * Rng).

(** [set_random_control_force] *)
Definition set_random_control_force (c : DoublePendulumOnCart) (lo hi : float)
  (g : Rng) : DoublePendulumOnCart * Rng * option exn :=
  let c1 := set_force_bounds c lo hi in
  match py_int (t_stop c1) with
  | Err e => (c1, g, Some e)
  | Ok n =>
      if (n <? 0)%Z then (c1, g, Some ValueError) else
      let '(draws, g') := uniform g lo hi (Z.to_nat n) in
      match py_div 1 (dt c1) with
      | Err e => (c1, g', Some e)
      | Ok q =>
          match py_int q with
          | Err e => (c1, g', Some e)
          | Ok k =>
              match np_repeat draws k with
              | Err e => (c1, g', Some e)
              | Ok cf => (set_control_force c1 cf, g', None)
              end
          end
      end
  end.
End Random.

(** [F = self.control_force[int(t*1/self.dt)]] (numpy division). *)
Definition force_index (c : DoublePendulumOnCart) (tt : float) : res Z :=
  py_int ((tt * 1) / dt c)%float.

Definition force_at (c : DoublePendulumOnCart) (tt : float) : res float :=
  let* k := force_index c tt in py_index (control_force c) k.

Section Dynamics.
Context `{Libm}.

(** [_derivs(state, t)] *)
Definition derivs (c : DoublePendulumOnCart) (st : list float) (tt : float)
  : res (list float) :=
  match st with
  | [th1; w1; th2; w2; x; vx] =>
      let delta := (th2 - th1)%float in
      let cos_delta := np_cos delta in
      let sin_delta := np_sin delta in
      let M := (M1 c + M2 c + Mc c)%float in
      let m1L1 := (M1 c * L1 c)%float in
      let m2L2 := (M2 c * L2 c)%float in
      let* F := force_at c tt in
      let den1 := (M * L1 c - M1 c * L1 c * sq (np_cos th1)
                   - M2 c * L1 c * sq cos_delta)%float in
      let den2 := (L2 c * den1 / L1 c)%float in
      let d1 := ((M1 c * L1 c * sq w1 * np_sin th1
                  + M2 c * L2 c * sq w2 * sin_delta * cos_delta
                  + M2 c * G c * np_sin th2 * cos_delta
                  + (F - Mc c * vx) * np_cos th1
                  - M * G c * np_sin th1)
                 / den1)%float in
      let d3 := ((- M2 c * L2 c * sq w2 * sin_delta * cos_delta
                  - (M * G c * np_sin th2)
                  + L1 c * d1 * cos_delta)
                 / den2)%float in
      let d5 := ((F + m1L1 * (d1 * np_cos th1 - sq w1 * np_sin th1)
                  + m2L2 * (d3 * cos_delta - sq w2 * sin_delta)) / M)%float in
      Ok [w1; d1; w2; d3; vx; d5]
  | _ => Err ValueError
  end.

(** The clamp of [solve] on the freshly updated row [y[i]]. *)
Definition clamp (c : DoublePendulumOnCart) (r : list float) : list float :=
  match r with
  | [a; b; d; e; xi; vi] =>
      if (xi <? x_min c)%float then [a; b; d; e; x_min c; 0%float]
      else if (x_max c <? xi)%float then [a; b; d; e; x_max c; 0%float]
      else r
  | _ => r
  end.

(** The loop of [solve] over the instants [t[0] .. t[len(t)-2]]. *)
Fixpoint euler_rows (c : DoublePendulumOnCart) (ts : list float)
  (prev : list float) : res (list (list float)) :=
  match ts with
  | [] => Ok []
  | tc :: ts' =>
      let* d := derivs c prev tc in
      let r := clamp c (vadd prev (vscale d (dt c))) in
      let* rs := euler_rows c ts' r in
      Ok (r :: rs)
  end.

Definition trajectory (c : DoublePendulumOnCart) : res (list (list float)) :=
  match t c with
  | [] => Err IndexError
  | _ :: _ =>
      let* rs := euler_rows c (removelast (t c)) (state c) in
      Ok (state c :: rs)
  end.

(** [solve]: [self.y = y] runs once the loop is over. *)
Definition solve (c : DoublePendulumOnCart) : DoublePendulumOnCart * option exn :=
  match trajectory c with
  | Ok ys => (set_y c (Some ys), None)
  | Err e => (c, Some e)
  end.

End Dynamics.

End DPC.

(** ** [double_pendulum_nn.py] in [dataset] mode *)

(** The script builds one simulation object with its default arguments and,
    for each [i] in [range(args.n_simulations)], draws initial conditions
    with Python's [random] module, solves, and saves to
    [path + str(i+1) + EXT].  The script creates no directory: whether
    [open] succeeds on each name is a parameter of the run. *)
Module Script.

Local Open Scope string_scope.

Definition PATH := "./dataset/".
Definition EXT := ".csv".
Definition pendulum_path := String.append PATH "double_pendulum/series_".
Definition cart_path := String.append PATH "double_pendulum_on_cart/series_".

Local Close Scope string_scope.

(** Python's [str] of a non-negative integer: its decimal digits. *)
Definition py_str (n : nat) : String.string :=
  DecimalString.NilZero.string_of_uint (Nat.to_uint n).

(** [path + str(i+1) + EXT] *)
Definition filename (path : String.string) (i : nat) : String.string :=
  String.append (String.append path (py_str (i + 1))) EXT.

(** The file a [save] call leaves, if it opened one. *)
Definition written (f : option Csv.file) : list Csv.file :=
  match f with Some f => [f] | None => [] end.

Section Run.
Context `{Libm} {PRng NRng : Type}.
(** [random.random()] of Python's generator and [np.random.uniform(lo, hi,
    n)] of numpy's, each with its own state. *)
Context (random : PRng -> float * PRng)
        (np_uniform : NRng -> float -> float -> nat -> list float * NRng).
(** The exception [open(name, mode='w')] raises, if any:
    [FileNotFoundError] when [./dataset/double_pendulum/] or
    [./dataset/double_pendulum_on_cart/] does not exist. *)
Context (open_error : String.string -> option exn).

(** [random.uniform(a, b)] is [a + (b - a) * random()]. *)
Definition py_uniform (g : PRng) (a b : float) : float * PRng :=
  let '(u, g') := random g in ((a + (b - a) * u)%float, g').

(** The loop of the [pendulum] model. *)
Fixpoint pendulum_loop (is : list nat) (p : DP.DoublePendulum) (g : PRng)
  : list Csv.file * option exn :=
  match is with
  | [] => ([], None)
  | i :: is' =>
      let '(th1, g) := py_uniform g 0 360 in
      let '(th2, g) := py_uniform g 0 360 in
      let '(w1, g) := py_uniform g (-180) 180 in
      let '(w2, g) := py_uniform g (-180) 180 in
      let p := DP.set_initial_conditions p th1 w1 th2 w2 in
      match DP.solve p with
      | (_, Some e) => ([], Some e)
      | (p, None) =>
          match DP.save_open open_error p (filename pendulum_path i) with
          | (f, Some e) => (written f, Some e)
          | (f, None) =>
              let '(fs, e) := pendulum_loop is' p g in (written f ++ fs, e)
          end
      end
  end.

(** The loop of the [pendulum_cart] model. *)
Fixpoint cart_loop (is : list nat) (c : DPC.DoublePendulumOnCart) (g : PRng)
  (ng : NRng) : list Csv.file * option exn :=
  match is with
  | [] => ([], None)
  | i :: is' =>
      let '(th1, g) := py_uniform g 0 360 in
      let '(th2, g) := py_uniform g 0 360 in
      let '(w1, g) := py_uniform g (-180) 180 in
      let '(w2, g) := py_uniform g (-180) 180 in
      let c := DPC.set_initial_conditions c th1 w1 th2 w2 0 0 in
      match DPC.set_random_control_force np_uniform c (-10) 10 ng with
      | (_, _, Some e) => ([], Some e)
      | (c, ng, None) =>
          match DPC.solve c with
          | (_, Some e) => ([], Some e)
          | (c, None) =>
              match DPC.save_open open_error c (filename cart_path i) with
              | (f, Some e) => (written f, Some e)
              | (f, None) =>
                  let '(fs, e) := cart_loop is' c g ng in (written f ++ fs, e)
              end
          end
      end
  end.

(** The two branches of the script, for [args.n_simulations = n]
    ([range(n)] is empty for [n <= 0]). *)
Definition run_pendulum (n : Z) (g : PRng) : list Csv.file * option exn :=
  match DP.init_default with
  | Err e => ([], Some e)
  | Ok p => pendulum_loop (seq 0 (Z.to_nat n)) p g
  end.

Definition run_cart (n : Z) (g : PRng) (ng : NRng) : list Csv.file * option exn :=
  match DPC.init_default with
  | Err e => ([], Some e)
  | Ok c => cart_loop (seq 0 (Z.to_nat n)) c g ng
  end.

End Run.

End Script.

(** ** Objects a program can reach *)

(** The objects a program obtains from the constructor followed by any
    sequence of method calls ([save] and [animate] assign nothing).  A call
    that raises keeps the assignments made before the exception, as the
    models of the methods do. *)
Section Reach.
Context `{Libm}.



End Reach.

(** ** Reading the spec *)


(** The pendulum's rate of change as section 4.1 of the spec writes it. *)
Definition pendulum_rates_spec `{Libm} (L1 L2 M1 M2 G th1 w1 th2 w2 : float)
  : list float :=
  let delta := (th2 - th1)%float in
  let den1 := ((M1 + M2) * L1 - M2 * L1 * sq (np_cos delta))%float in
  let den2 := ((L2 / L1) * den1)%float in
  [w1;
   ((M2 * L1 * sq w1 * np_sin delta * np_cos delta
     + M2 * G * np_sin th2 * np_cos delta
     + M2 * L2 * sq w2 * np_sin delta
     - (M1 + M2) * G * np_sin th1) / den1)%float;
   w2;
   ((- M2 * L2 * sq w2 * np_sin delta * np_cos delta
     + (M1 + M2) * G * np_sin th1 * np_cos delta
     - (M1 + M2) * L1 * sq w1 * np_sin delta
     - (M1 + M2) * G * np_sin th2) / den2)%float].

(** ** Concrete instances for running examples *)

(** A [sin]/[cos] pair given by truncated Taylor series (exact at 0). *)
Definition taylor_libm : Libm := {|
  np_sin := fun u => (u - u * u * u / 6 + u * u * u * u * u / 120)%float;
  np_cos := fun u => (1 - u * u / 2 + u * u * u * u / 24)%float |}.

(** A generator whose state counts the calls; it draws [lo] every time. *)
Definition const_uniform (g : nat) (lo hi : float) (n : nat)
  : list float * nat := (repeat lo n, S g).

(** A control force equal to the sample index: [F[i] = i]. *)
Definition ramp_force (n : nat) : list float :=
  map (fun i => float_of_Z (Z.of_nat i)) (seq 0 n).

(** ** Facts about the primitives *)

Lemma bind_Ok {A B} (m : res A) (f : A -> res B) b :
  bind m f = Ok b -> exists a, m = Ok a /\ f a = Ok b.
Proof. destruct m as [a|e]; simpl; [eauto | discriminate]. Qed.


Lemma float_mul_comm (a b : float) : (a * b)%float = (b * a)%float.
Proof.
  apply Prim2SF_inj. rewrite !mul_spec. unfold SF64mul, SFmul.
  destruct (Prim2SF a) as [sa|sa| |sa ma ea], (Prim2SF b) as [sb|sb| |sb mb eb];
    rewrite ?(xorb_comm sa sb), ?(Pos.mul_comm ma mb), ?(Z.add_comm ea eb);
    reflexivity.
Qed.


Lemma pos_compare_cont_antisym (a b : positive) :
  Pos.compare_cont Eq a b = CompOpp (Pos.compare_cont Eq b a).
Proof. exact (Pos.compare_antisym b a). Qed.

Lemma SFcompare_swap (u v : spec_float) :
  SFcompare v u = option_map CompOpp (SFcompare u v).
Proof.
  destruct u as [su|su| |su mu eu], v as [sv|sv| |sv mv ev]; simpl;
    try destruct su; try destruct sv; try reflexivity.
  all: destruct (Z.compare eu ev) eqn:E1;
    [apply Z.compare_eq in E1; subst ev; rewrite Z.compare_refl
    | rewrite Z.compare_antisym, E1 | rewrite Z.compare_antisym, E1]; simpl;
    try reflexivity.
  all: rewrite (pos_compare_cont_antisym mv mu);
    destruct (Pos.compare_cont Eq mu mv); reflexivity.
Qed.

Lemma float_ltb_irrefl (a : float) : (a <? a)%float = false.
Proof.
  rewrite ltb_spec. unfold SFltb.
  destruct (Prim2SF a) as [sa|[|]| |[|] ma ea]; simpl; try reflexivity;
    rewrite Z.compare_refl, Pos.compare_cont_refl; reflexivity.
Qed.

Lemma float_ltb_asym (a b : float) :
  (a <? b)%float = true -> (b <? a)%float = false.
Proof.
  rewrite !ltb_spec. unfold SFltb. rewrite (SFcompare_swap (Prim2SF a) (Prim2SF b)).
  destruct (SFcompare (Prim2SF a) (Prim2SF b)) as [[| |]|]; simpl;
    congruence.
Qed.



Lemma arange_length (s d : float) (g : list float) :
  arange s d = Ok g ->
  exists q n, py_div (s - 0)%float d = Ok q /\ py_ceil q = Ok n /\
              length g = Z.to_nat n.
Proof.
  unfold arange. intros H.
  apply bind_Ok in H as [q [Hq H]]. apply bind_Ok in H as [n [Hn H]].
  injection H as <-. exists q, n. repeat split; auto.
  rewrite length_map, length_seq. reflexivity.
Qed.


Lemma length_vadd (a b : list float) :
  length (vadd a b) = Nat.min (length a) (length b).
Proof. unfold vadd. rewrite length_map, length_combine. reflexivity. Qed.

Lemma length_vscale (a : list float) (c : float) :
  length (vscale a c) = length a.
Proof. unfold vscale. apply length_map. Qed.

Lemma nth_error_removelast {A} (l : list A) (i : nat) :
  S i < length l -> nth_error (removelast l) i = nth_error l i.
Proof.
  revert i. induction l as [|a l IH]; intros i Hi; [simpl in Hi; lia|].
  destruct l as [|b l]; [simpl in Hi; lia|].
  destruct i as [|i]; [reflexivity|].
  change (nth_error (removelast (b :: l)) i = nth_error (b :: l) i).
  apply IH. simpl in *. lia.
Qed.

Lemma length_removelast {A} (l : list A) :
  length (removelast l) = length l - 1.
Proof.
  induction l as [|a l IH]; [reflexivity|].
  destruct l as [|b l]; [reflexivity|].
  change (S (length (removelast (b :: l))) = length (a :: b :: l) - 1).
  rewrite IH. simpl. lia.
Qed.

(** ** Facts about [DoublePendulum] *)

Module DP_facts.
Section Facts.
Context `{Libm}.

Lemma derivs_total (p : DP.DoublePendulum) (s : list float) :
  length s = 4 -> (DP.L1 p =? 0)%float = false ->
  exists d, DP.derivs p s = Ok d /\ length d = 4.
Proof.
  intros Hs HL.
  destruct s as [|s0 [|s1 [|s2 [|s3 [|]]]]]; try discriminate.
  unfold DP.derivs, py_div. rewrite HL. eexists; split; reflexivity.
Qed.

Lemma euler_rows_length (p : DP.DoublePendulum) n prev rs :
  DP.euler_rows p n prev = Ok rs -> length rs = n.
Proof.
  revert prev rs. induction n as [|n IH]; intros prev rs Hr; simpl in Hr.
  - injection Hr as <-. reflexivity.
  - apply bind_Ok in Hr as [d [_ Hr]]. apply bind_Ok in Hr as [rs' [Hr' E]].
    injection E as <-. simpl. f_equal. eapply IH; eauto.
Qed.

Lemma euler_rows_total (p : DP.DoublePendulum) n prev :
  length prev = 4 -> (DP.L1 p =? 0)%float = false ->
  exists rs, DP.euler_rows p n prev = Ok rs.
Proof.
  intros Hp HL. revert prev Hp. induction n as [|n IH]; intros prev Hp.
  - exists []. reflexivity.
  - destruct (derivs_total p prev Hp HL) as [d [Hd Hl]].
    set (r := vadd prev (vscale d (DP.dt p))).
    assert (Hr : length r = 4)
      by (unfold r; rewrite length_vadd, length_vscale, Hp, Hl; reflexivity).
    destruct (IH r Hr) as [rs Hrs].
    exists (r :: rs). simpl. rewrite Hd. simpl. fold r. rewrite Hrs. reflexivity.
Qed.

Lemma euler_rows_step (p : DP.DoublePendulum) n prev rs :
  DP.euler_rows p n prev = Ok rs ->
  forall i a r, nth_error (prev :: rs) i = Some a ->
  nth_error (prev :: rs) (S i) = Some r ->
  exists d, DP.derivs p a = Ok d /\ r = vadd a (vscale d (DP.dt p)).
Proof.
  revert prev rs. induction n as [|n IH]; intros prev rs Hr i a r Ha Hr1;
    simpl in Hr.
  - injection Hr as <-. destruct i; discriminate.
  - apply bind_Ok in Hr as [d [Hd Hr]]. apply bind_Ok in Hr as [rs' [Hr' E]].
    injection E as <-. destruct i as [|i].
    + simpl in Ha, Hr1. injection Ha as <-. injection Hr1 as <-. eauto.
    + eapply IH; eauto.
Qed.

Lemma trajectory_shape (p : DP.DoublePendulum) ys :
  DP.trajectory p = Ok ys ->
  length ys = length (DP.t p) /\ nth_error ys 0 = Some (DP.state p) /\
  exists rs, ys = DP.state p :: rs /\
             DP.euler_rows p (length (DP.t p) - 1) (DP.state p) = Ok rs.
Proof.
  unfold DP.trajectory. destruct (DP.t p) as [|t0 ts] eqn:Et; [discriminate|].
  intros Hy. apply bind_Ok in Hy as [rs [Hrs E]]. injection E as <-.
  apply euler_rows_length in Hrs as Hl.
  split; [simpl in *; lia|]. split; [reflexivity|]. exists rs; split; auto.
Qed.

Lemma solve_cases (p : DP.DoublePendulum) :
  match DP.solve p with
  | (p', Some e) => p' = p /\ DP.trajectory p = Err e
  | (p', None) => exists ys, DP.trajectory p = Ok ys /\ p' = DP.set_y p (Some ys)
  end.
Proof.
  unfold DP.solve. destruct (DP.trajectory p) as [ys|e]; eauto.
Qed.

Lemma euler_rows_set_y (p : DP.DoublePendulum) v n prev :
  DP.euler_rows (DP.set_y p v) n prev = DP.euler_rows p n prev.
Proof.
  revert prev. induction n as [|n IH]; intros prev; [reflexivity|].
  simpl. change (DP.derivs (DP.set_y p v) prev) with (DP.derivs p prev).
  destruct (DP.derivs p prev); simpl; [rewrite IH|]; reflexivity.
Qed.

Lemma trajectory_set_y (p : DP.DoublePendulum) v :
  DP.trajectory (DP.set_y p v) = DP.trajectory p.
Proof.
  unfold DP.trajectory. simpl. destruct (DP.t p); [reflexivity|].
  rewrite euler_rows_set_y. reflexivity.
Qed.

Lemma derivs_shape (p : DP.DoublePendulum) s d :
  DP.derivs p s = Ok d -> length s = 4 /\ length d = 4.
Proof.
  destruct s as [|s0 [|s1 [|s2 [|s3 [|]]]]]; try discriminate.
  unfold DP.derivs. intros Hd. apply bind_Ok in Hd as [r [_ E]].
  injection E as <-. split; reflexivity.
Qed.


End Facts.
End DP_facts.

(** ** Facts about [DoublePendulumOnCart] *)

Module DPC_facts.
Section Facts.
Context `{Libm}.

Lemma cart_derivs_shape (c : DPC.DoublePendulumOnCart) s tc d :
  DPC.derivs c s tc = Ok d -> length s = 6 /\ length d = 6.
Proof.
  destruct s as [|a0 [|a1 [|a2 [|a3 [|a4 [|a5 [|]]]]]]]; try discriminate.
  unfold DPC.derivs. intros Hd. apply bind_Ok in Hd as [F [_ E]].
  injection E as <-. split; reflexivity.
Qed.

Lemma cart_euler_rows_length (c : DPC.DoublePendulumOnCart) ts prev rs :
  DPC.euler_rows c ts prev = Ok rs -> length rs = length ts.
Proof.
  revert prev rs. induction ts as [|tc ts IH]; intros prev rs Hr; simpl in Hr.
  - injection Hr as <-. reflexivity.
  - apply bind_Ok in Hr as [d [_ Hr]]. apply bind_Ok in Hr as [rs' [Hr' E]].
    injection E as <-. simpl. f_equal. eapply IH; eauto.
Qed.

Lemma cart_euler_rows_step (c : DPC.DoublePendulumOnCart) ts prev rs :
  DPC.euler_rows c ts prev = Ok rs ->
  forall i a r, nth_error (prev :: rs) i = Some a ->
  nth_error (prev :: rs) (S i) = Some r ->
  exists tc d, nth_error ts i = Some tc /\ DPC.derivs c a tc = Ok d /\
               r = DPC.clamp c (vadd a (vscale d (DPC.dt c))).
Proof.
  revert prev rs. induction ts as [|tc ts IH]; intros prev rs Hr i a r Ha Hr1;
    simpl in Hr.
  - injection Hr as <-. destruct i; discriminate.
  - apply bind_Ok in Hr as [d [Hd Hr]]. apply bind_Ok in Hr as [rs' [Hr' E]].
    injection E as <-. destruct i as [|i].
    + simpl in Ha, Hr1. injection Ha as <-. injection Hr1 as <-.
      exists tc, d. repeat split; auto.
    + eapply IH; eauto.
Qed.

Lemma cart_trajectory_shape (c : DPC.DoublePendulumOnCart) ys :
  DPC.trajectory c = Ok ys ->
  length ys = length (DPC.t c) /\ nth_error ys 0 = Some (DPC.state c) /\
  exists rs, ys = DPC.state c :: rs /\
             DPC.euler_rows c (removelast (DPC.t c)) (DPC.state c) = Ok rs.
Proof.
  unfold DPC.trajectory. destruct (DPC.t c) as [|t0 ts] eqn:Et; [discriminate|].
  intros Hy. apply bind_Ok in Hy as [rs [Hrs E]]. injection E as <-.
  apply cart_euler_rows_length in Hrs as Hl. rewrite length_removelast in Hl.
  split; [simpl in *; lia|]. split; [reflexivity|]. exists rs; split; auto.
Qed.

Lemma cart_solve_cases (c : DPC.DoublePendulumOnCart) :
  match DPC.solve c with
  | (c', Some e) => c' = c /\ DPC.trajectory c = Err e
  | (c', None) => exists ys, DPC.trajectory c = Ok ys /\ c' = DPC.set_y c (Some ys)
  end.
Proof.
  unfold DPC.solve. destruct (DPC.trajectory c) as [ys|e]; eauto.
Qed.

Lemma cart_euler_rows_set_y (c : DPC.DoublePendulumOnCart) v ts prev :
  DPC.euler_rows (DPC.set_y c v) ts prev = DPC.euler_rows c ts prev.
Proof.
  revert prev. induction ts as [|tc ts IH]; intros prev; [reflexivity|].
  simpl. change (DPC.derivs (DPC.set_y c v) prev tc) with (DPC.derivs c prev tc).
  destruct (DPC.derivs c prev tc); simpl; [rewrite IH|]; reflexivity.
Qed.

Lemma cart_trajectory_set_y (c : DPC.DoublePendulumOnCart) v :
  DPC.trajectory (DPC.set_y c v) = DPC.trajectory c.
Proof.
  unfold DPC.trajectory. simpl. destruct (DPC.t c); [reflexivity|].
  rewrite cart_euler_rows_set_y. reflexivity.
Qed.

(** A row [i >= 1] of a stored cart trajectory is the clamp of an Euler
    update of row [i - 1], taken at grid instant [i - 1]. *)
Lemma stored_row_step (c c' : DPC.DoublePendulumOnCart) ys :
  DPC.solve c = (c', None) -> DPC.y c' = Some ys ->
  forall i a r, 1 <= i -> nth_error ys (i - 1) = Some a -> nth_error ys i = Some r ->
  exists tc d u0 u1 u2 u3 ux uv,
    nth_error (DPC.t c) (i - 1) = Some tc /\ DPC.derivs c a tc = Ok d /\
    vadd a (vscale d (DPC.dt c)) = [u0; u1; u2; u3; ux; uv] /\
    r = DPC.clamp c [u0; u1; u2; u3; ux; uv].
Proof.
  intros Hs Hy i a r Hi Ha Hr.
  pose proof (cart_solve_cases c) as Hc. rewrite Hs in Hc.
  destruct Hc as [ys' [Ht E]]. subst c'. simpl in Hy. injection Hy as <-.
  destruct (cart_trajectory_shape c ys' Ht) as [Hlen [_ [rs [-> Hrs]]]].
  replace i with (S (i - 1)) in Hr by lia.
  destruct (cart_euler_rows_step _ _ _ _ Hrs (i - 1) a r Ha Hr) as [tc [d [Htc [Hd Er]]]].
  rewrite nth_error_removelast in Htc.
  2:{ assert (Hr' : nth_error (DPC.state c :: rs) (S (i - 1)) <> None) by congruence.
       apply nth_error_Some in Hr'. simpl in Hr'.
       apply cart_euler_rows_length in Hrs. rewrite length_removelast in Hrs. lia. }
  destruct (cart_derivs_shape c a tc d Hd) as [La Ld].
  destruct (vadd a (vscale d (DPC.dt c))) as [|u0 [|u1 [|u2 [|u3 [|ux [|uv [|]]]]]]] eqn:Eu;
    try (apply (f_equal (@length float)) in Eu;
         rewrite length_vadd, length_vscale, La, Ld in Eu; discriminate).
  exists tc, d, u0, u1, u2, u3, ux, uv. repeat split; auto.
Qed.

End Facts.
End DPC_facts.

(** A comparison that answers at all involves no NaN. *)
Lemma SFcompare_not_nan (u v : spec_float) :
  SFcompare u v = None -> u = S754_nan \/ v = S754_nan.
Proof. destruct u, v; simpl; try discriminate; auto. Qed.

Lemma float_ltb_not_nan (a b : float) :
  (a <? b)%float = true -> is_nan a = false /\ is_nan b = false.
Proof.
  unfold is_nan. rewrite ltb_spec, !eqb_spec. unfold SFltb, SFeqb.
  destruct (Prim2SF a) as [sa|sa| |sa ma ea], (Prim2SF b) as [sb|sb| |sb mb eb];
    simpl; try discriminate; intros _;
    rewrite ?Z.compare_refl, ?Pos.compare_cont_refl;
    try destruct sa; try destruct sb; split; reflexivity.
Qed.

(** Away from NaN, a [<] that fails is a [>=]. *)
Lemma float_not_ltb_leb (a b : float) :
  is_nan a = false -> is_nan b = false ->
  (a <? b)%float = false -> (b <=? a)%float = true.
Proof.
  unfold is_nan. rewrite ltb_spec, leb_spec, !eqb_spec. unfold SFltb, SFleb, SFeqb.
  rewrite (SFcompare_swap (Prim2SF a) (Prim2SF b)).
  intros Na Nb.
  destruct (SFcompare (Prim2SF a) (Prim2SF b)) as [[| |]|] eqn:E; simpl;
    try reflexivity; try discriminate.
  destruct (SFcompare_not_nan _ _ E) as [Ea|Eb];
    [rewrite Ea in Na | rewrite Eb in Nb]; discriminate.
Qed.

(** The clamp of [solve] on a six-entry row, by the cases of its
    [if]/[elif]: with [x_min < x_max] the clamped [x] is neither below
    [x_min] nor above [x_max], and the angular entries are kept. *)
Lemma clamp_cases (c : DPC.DoublePendulumOnCart) u0 u1 u2 u3 ux uv :
  (DPC.x_min c <? DPC.x_max c)%float = true ->
  exists xr vr,
    DPC.clamp c [u0; u1; u2; u3; ux; uv] = [u0; u1; u2; u3; xr; vr] /\
    ((ux <? DPC.x_min c)%float = true -> xr = DPC.x_min c /\ vr = 0%float) /\
    ((ux <? DPC.x_min c)%float = false -> (DPC.x_max c <? ux)%float = true ->
       xr = DPC.x_max c /\ vr = 0%float) /\
    ((ux <? DPC.x_min c)%float = false -> (DPC.x_max c <? ux)%float = false ->
       xr = ux /\ vr = uv) /\
    (xr <? DPC.x_min c)%float = false /\ (DPC.x_max c <? xr)%float = false.
Proof.
  intros Hlt. pose proof (float_ltb_asym _ _ Hlt) as Hgt.
  unfold DPC.clamp.
  destruct (ux <? DPC.x_min c)%float eqn:E1;
    [|destruct (DPC.x_max c <? ux)%float eqn:E2].
  - exists (DPC.x_min c), 0%float.
    repeat split; intros; try discriminate; try apply float_ltb_irrefl; auto.
  - exists (DPC.x_max c), 0%float.
    repeat split; intros; try discriminate; try apply float_ltb_irrefl; auto.
  - exists ux, uv. repeat split; intros; try discriminate; auto.
Qed.

(** [np.repeat] of a 1-d array by [k]: [k] copies of each entry, in
    blocks. *)
Lemma length_flat_map_repeat (l : list float) (k : nat) :
  length (flat_map (fun v => repeat v k) l) = (length l * k)%nat.
Proof.
  induction l as [|v l IH]; [reflexivity|].
  simpl. rewrite length_app, repeat_length, IH. reflexivity.
Qed.

Lemma nth_error_flat_map_repeat (l : list float) (k j m : nat) v :
  nth_error l j = Some v -> m < k ->
  nth_error (flat_map (fun v => repeat v k) l) (j * k + m) = Some v.
Proof.
  revert j. induction l as [|a l IH]; intros j Hj Hm.
  - destruct j; discriminate.
  - simpl. destruct j as [|j].
    + simpl in Hj. injection Hj as <-. simpl.
      rewrite nth_error_app1 by (rewrite repeat_length; lia).
      apply nth_error_repeat. exact Hm.
    + simpl in Hj.
      rewrite nth_error_app2 by (rewrite repeat_length; simpl; lia).
      rewrite repeat_length.
      replace (S j * k + m - k) with (j * k + m) by (simpl; lia).
      apply IH; assumption.
Qed.

Section RandomForce.
Context {Rng : Type} (uniform : Rng -> float -> float -> nat -> list float * Rng).

(** A call of [set_random_control_force] that raises nothing went through
    every step of the method. *)
Lemma set_random_inv (c c' : DPC.DoublePendulumOnCart) lo hi (g g' : Rng) :
  DPC.set_random_control_force uniform c lo hi g = (c', g', None) ->
  exists n q k draws,
    py_int (DPC.t_stop c) = Ok n /\ (0 <= n)%Z /\
    uniform g lo hi (Z.to_nat n) = (draws, g') /\
    py_div 1 (DPC.dt c) = Ok q /\ py_int q = Ok k /\ (0 <= k)%Z /\
    c' = DPC.set_control_force (DPC.set_force_bounds c lo hi)
           (flat_map (fun v => repeat v (Z.to_nat k)) draws).
Proof.
  unfold DPC.set_random_control_force.
  cbn [DPC.t_stop DPC.dt DPC.set_force_bounds].
  destruct (py_int (DPC.t_stop c)) as [n|e] eqn:Hn; [|discriminate].
  destruct (n <? 0)%Z eqn:En; [discriminate|].
  destruct (uniform g lo hi (Z.to_nat n)) as [draws g1] eqn:Hu.
  destruct (py_div 1 (DPC.dt c)) as [q|e] eqn:Hq; [|discriminate].
  destruct (py_int q) as [k|e] eqn:Hk; [|discriminate].
  unfold DPC.np_repeat. destruct (k <? 0)%Z eqn:Ek; [discriminate|].
  intros H. injection H as <- <-.
  apply Z.ltb_ge in En. apply Z.ltb_ge in Ek.
  exists n, q, k, draws. repeat split; auto.
Qed.

(** And when every step succeeds, so does the call. *)
Lemma set_random_ok (c : DPC.DoublePendulumOnCart) lo hi (g g' : Rng) n q k draws :
  py_int (DPC.t_stop c) = Ok n -> (0 <= n)%Z ->
  uniform g lo hi (Z.to_nat n) = (draws, g') ->
  py_div 1 (DPC.dt c) = Ok q -> py_int q = Ok k -> (0 <= k)%Z ->
  DPC.set_random_control_force uniform c lo hi g =
  (DPC.set_control_force (DPC.set_force_bounds c lo hi)
     (flat_map (fun v => repeat v (Z.to_nat k)) draws), g', None).
Proof.
  intros Hn Hn0 Hu Hq Hk Hk0. unfold DPC.set_random_control_force.
  cbn [DPC.t_stop DPC.dt DPC.set_force_bounds].
  rewrite Hn. replace (n <? 0)%Z with false by (symmetry; apply Z.ltb_ge; lia).
  rewrite Hu, Hq, Hk. unfold DPC.np_repeat.
  replace (k <? 0)%Z with false by (symmetry; apply Z.ltb_ge; lia).
  reflexivity.
Qed.

End RandomForce.

(** [row + c * d], elementwise, is the update [row + d * c] of [solve]. *)
Lemma vadd_vscale_comm (a d : list float) (c : float) :
  vadd a (vscale d c) = map (fun '(u, v) => (u + c * v)%float) (combine a d).
Proof.
  revert d. induction a as [|u a IH]; intros [|v d]; try reflexivity.
  unfold vadd, vscale in *. simpl. rewrite float_mul_comm, IH. reflexivity.
Qed.

(** The value of a computation that succeeds, for stating examples. *)
Ltac ok_value r :=
  let v := eval vm_compute in r in
  match v with Ok ?a => exact a end.

(** ** Facts about [save] and the cart's Euler loop *)

(** Indexing with a non-negative Python integer is [nth_error]. *)
Lemma py_index_nat {A} (l : list A) (k : nat) :
  py_index l (Z.of_nat k) =
  match nth_error l k with Some a => Ok a | None => Err IndexError end.
Proof.
  unfold py_index.
  replace (Z.of_nat k <? 0)%Z with false by (symmetry; apply Z.ltb_ge; lia).
  destruct (Nat.lt_ge_cases k (length l)) as [Hk|Hk].
  - replace ((0 <=? Z.of_nat k) && (Z.of_nat k <? Z.of_nat (length l)))%Z with true
      by (symmetry; apply andb_true_iff; split; [apply Z.leb_le | apply Z.ltb_lt]; lia).
    rewrite Nat2Z.id. reflexivity.
  - replace ((0 <=? Z.of_nat k) && (Z.of_nat k <? Z.of_nat (length l)))%Z with false
      by (symmetry; apply andb_false_iff; right; apply Z.ltb_ge; lia).
    rewrite (proj2 (nth_error_None l k) Hk). reflexivity.
Qed.

Lemma skipn_nth_error {A} (l : list A) (k : nat) (a : A) :
  nth_error l k = Some a -> skipn k l = a :: skipn (S k) l.
Proof.
  revert k. induction l as [|b l IH]; intros [|k] Hk; try discriminate.
  - injection Hk as <-. reflexivity.
  - apply IH. exact Hk.
Qed.

Lemma nth_error_combine {A B} (l1 : list A) (l2 : list B) (k : nat) :
  nth_error (combine l1 l2) k =
  match nth_error l1 k, nth_error l2 k with
  | Some a, Some b => Some (a, b) | _, _ => None end.
Proof.
  revert l2 k. induction l1 as [|a l1 IH]; intros [|b l2] [|k]; simpl; auto.
  destruct (nth_error l1 k); reflexivity.
Qed.

(** The loop of [DoublePendulum.save] over [range(k, k + n)], on rows of
    four entries: it writes the rows [y[k] .. y[k+n-1]] that exist and
    stops with [IndexError] at the first missing one. *)
Lemma dp_save_rows_seq (ys : list (list float)) (k n : nat) :
  Forall (fun r => length r = 4) ys -> k <= length ys ->
  DP.save_rows ys (seq k n) =
  (map Csv.Data (firstn n (skipn k ys)),
   if k + n <=? length ys then None else Some IndexError).
Proof.
  intros Hys. revert k. induction n as [|n IH]; intros k Hk.
  - simpl. replace (k + 0 <=? length ys) with true
      by (symmetry; apply Nat.leb_le; lia). reflexivity.
  - simpl. rewrite py_index_nat.
    destruct (nth_error ys k) as [r|] eqn:Er.
    + assert (Hr : length r = 4)
        by (rewrite Forall_forall in Hys; apply Hys; eapply nth_error_In; eauto).
      assert (Hk' : S k <= length ys)
        by (apply (proj1 (nth_error_Some ys k)); congruence).
      destruct r as [|a [|b [|c [|d [|]]]]]; try discriminate.
      rewrite (IH (S k) Hk'), (skipn_nth_error _ _ _ Er).
      replace (k + S n) with (S k + n) by lia. reflexivity.
    + apply nth_error_None in Er.
      rewrite skipn_all2 by exact Er.
      replace (k + S n <=? length ys) with false
        by (symmetry; apply Nat.leb_gt; lia).
      destruct n; reflexivity.
Qed.

(** The loop of [DoublePendulumOnCart.save] over [range(k, k + n)]: the rows
    [[control_force[i]] + y[i]] while both exist, then [IndexError]. *)
Lemma dpc_save_rows_seq (cf : list float) (ys : list (list float)) (k n : nat) :
  k <= Nat.min (length cf) (length ys) ->
  DPC.save_rows cf ys (seq k n) =
  (map (fun '(f, r) => Csv.Data (f :: r)) (firstn n (skipn k (combine cf ys))),
   if k + n <=? Nat.min (length cf) (length ys) then None else Some IndexError).
Proof.
  revert k. induction n as [|n IH]; intros k Hk.
  - simpl. replace (k + 0 <=? Nat.min (length cf) (length ys)) with true
      by (symmetry; apply Nat.leb_le; lia). reflexivity.
  - simpl. rewrite !py_index_nat.
    pose proof (nth_error_combine cf ys k) as Ec.
    destruct (nth_error cf k) as [f|] eqn:Ef;
      [destruct (nth_error ys k) as [r|] eqn:Er|]; simpl.
    + assert (Hk' : S k <= Nat.min (length cf) (length ys)).
      { assert (Hf : k < length cf) by (apply nth_error_Some; congruence).
        assert (Hr : k < length ys) by (apply nth_error_Some; congruence). lia. }
      rewrite (IH (S k) Hk'), (skipn_nth_error _ _ _ Ec).
      replace (k + S n) with (S k + n) by lia. reflexivity.
    + apply nth_error_None in Er.
      rewrite skipn_all2 by (rewrite length_combine; lia).
      replace (k + S n <=? Nat.min (length cf) (length ys)) with false
        by (symmetry; apply Nat.leb_gt; lia).
      destruct n; reflexivity.
    + apply nth_error_None in Ef.
      rewrite skipn_all2 by (rewrite length_combine; lia).
      replace (k + S n <=? Nat.min (length cf) (length ys)) with false
        by (symmetry; apply Nat.leb_gt; lia).
      destruct n; reflexivity.
Qed.

Lemma clamp_length (c : DPC.DoublePendulumOnCart) (r : list float) :
  length (DPC.clamp c r) = length r.
Proof.
  unfold DPC.clamp. destruct r as [|a [|b [|d [|e [|xi [|vi [|]]]]]]]; try reflexivity.
  destruct (xi <? DPC.x_min c)%float; [reflexivity|].
  destruct (DPC.x_max c <? xi)%float; reflexivity.
Qed.

Lemma cart_derivs_force `{Libm} (c : DPC.DoublePendulumOnCart) s tc d :
  DPC.derivs c s tc = Ok d -> exists F, DPC.force_at c tc = Ok F.
Proof.
  destruct s as [|a0 [|a1 [|a2 [|a3 [|a4 [|a5 [|]]]]]]]; try discriminate.
  unfold DPC.derivs. intros Hd. apply bind_Ok in Hd as [F [HF _]]. eauto.
Qed.

Lemma cart_derivs_total `{Libm} (c : DPC.DoublePendulumOnCart) s tc F :
  length s = 6 -> DPC.force_at c tc = Ok F -> exists d, DPC.derivs c s tc = Ok d.
Proof.
  destruct s as [|a0 [|a1 [|a2 [|a3 [|a4 [|a5 [|]]]]]]]; try discriminate.
  intros _ HF. unfold DPC.derivs. rewrite HF. eexists. reflexivity.
Qed.

(** The cart's Euler loop goes through exactly when the force can be looked
    up at each of its instants, and its rows keep six entries. *)
Lemma cart_euler_rows_ok `{Libm} (c : DPC.DoublePendulumOnCart) ts prev :
  length prev = 6 -> (forall tc, In tc ts -> exists F, DPC.force_at c tc = Ok F) ->
  exists rs, DPC.euler_rows c ts prev = Ok rs.
Proof.
  revert prev. induction ts as [|tc ts IH]; intros prev Hp HF.
  - exists []. reflexivity.
  - destruct (HF tc (or_introl eq_refl)) as [F HF0].
    destruct (cart_derivs_total c prev tc F Hp HF0) as [d Hd].
    destruct (DPC_facts.cart_derivs_shape c prev tc d Hd) as [_ Ld].
    destruct (IH (DPC.clamp c (vadd prev (vscale d (DPC.dt c))))) as [rs Hrs].
    + rewrite clamp_length, length_vadd, length_vscale, Hp, Ld. reflexivity.
    + intros tc' Hin. apply HF. right. exact Hin.
    + simpl. rewrite Hd. simpl. rewrite Hrs. eexists. reflexivity.
Qed.

Lemma cart_derivs_err `{Libm} (c : DPC.DoublePendulumOnCart) s tc e :
  length s = 6 -> DPC.force_at c tc = Err e -> DPC.derivs c s tc = Err e.
Proof.
  destruct s as [|a0 [|a1 [|a2 [|a3 [|a4 [|a5 [|]]]]]]]; try discriminate.
  intros _ HF. unfold DPC.derivs. rewrite HF. reflexivity.
Qed.

(** When every force lookup of the loop either succeeds or raises
    [IndexError], and one of them raises, the loop raises [IndexError]. *)
Lemma cart_euler_rows_index_error `{Libm} (c : DPC.DoublePendulumOnCart) ts prev :
  length prev = 6 ->
  forallb (fun tc => match DPC.force_at c tc with
                     | Ok _ | Err IndexError => true | Err _ => false end) ts = true ->
  existsb (fun tc => match DPC.force_at c tc with
                     | Ok _ => false | Err _ => true end) ts = true ->
  DPC.euler_rows c ts prev = Err IndexError.
Proof.
  revert prev. induction ts as [|tc ts IH]; intros prev Hp Hall Hex;
    [discriminate Hex|].
  cbn [forallb existsb] in Hall, Hex. apply andb_true_iff in Hall as [H1 Hall].
  destruct (DPC.force_at c tc) as [F|e] eqn:HF.
  - destruct (cart_derivs_total c prev tc F Hp HF) as [d Hd].
    destruct (DPC_facts.cart_derivs_shape c prev tc d Hd) as [_ Ld].
    simpl. rewrite Hd. simpl.
    rewrite (IH (DPC.clamp c (vadd prev (vscale d (DPC.dt c))))); [reflexivity| |exact Hall|exact Hex].
    rewrite clamp_length, length_vadd, length_vscale, Hp, Ld. reflexivity.
  - destruct e; try discriminate H1.
    simpl. rewrite (cart_derivs_err c prev tc IndexError Hp HF). reflexivity.
Qed.

(** [solve] on a six-entry state raises [IndexError], and changes nothing,
    when one force lookup of its loop does and the others succeed or raise
    [IndexError]. *)
Lemma cart_solve_index_error `{Libm} (c : DPC.DoublePendulumOnCart) :
  length (DPC.state c) = 6 ->
  forallb (fun tc => match DPC.force_at c tc with
                     | Ok _ | Err IndexError => true | Err _ => false end)
          (removelast (DPC.t c)) = true ->
  existsb (fun tc => match DPC.force_at c tc with
                     | Ok _ => false | Err _ => true end)
          (removelast (DPC.t c)) = true ->
  DPC.solve c = (c, Some IndexError).
Proof.
  intros Hs Hall Hex. unfold DPC.solve, DPC.trajectory.
  destruct (DPC.t c) as [|t0 ts]; [discriminate Hex|].
  rewrite (cart_euler_rows_index_error c _ _ Hs Hall Hex). reflexivity.
Qed.

(** [solve] on a six-entry state completes when every force lookup of its
    loop succeeds. *)
Lemma cart_solve_total `{Libm} (c : DPC.DoublePendulumOnCart) :
  length (DPC.state c) = 6 -> DPC.t c <> [] ->
  forallb (fun tc => match DPC.force_at c tc with Ok _ => true | Err _ => false end)
          (removelast (DPC.t c)) = true ->
  exists ys, DPC.solve c = (DPC.set_y c (Some ys), None) /\
             DPC.trajectory c = Ok ys /\ length ys = length (DPC.t c).
Proof.
  intros Hs Ht Hall.
  assert (HF : forall tc, In tc (removelast (DPC.t c)) ->
               exists F, DPC.force_at c tc = Ok F).
  { intros tc Hin. rewrite forallb_forall in Hall. specialize (Hall tc Hin).
    destruct (DPC.force_at c tc) as [F|e]; [eauto|discriminate]. }
  destruct (cart_euler_rows_ok c _ _ Hs HF) as [rs Hrs].
  assert (Htr : DPC.trajectory c = Ok (DPC.state c :: rs)).
  { unfold DPC.trajectory. rewrite Hrs.
    destruct (DPC.t c) eqn:E;
      [exfalso; apply Ht; first [exact E | reflexivity] | reflexivity]. }
  exists (DPC.state c :: rs).
  destruct (DPC_facts.cart_trajectory_shape c _ Htr) as [Hl _].
  unfold DPC.solve. rewrite Htr. auto.
Qed.



(** ** The claims *)




(** C2.  Explicit Euler stepping of the pendulum: when [solve] completes,
    every row [i >= 1] of the stored trajectory is row [i - 1] plus [dt]
    times the derivative evaluated at row [i - 1]. *)
Theorem C2_pendulum_euler_rows `{Libm} (p p' : DP.DoublePendulum) ys :
  DP.solve p = (p', None) -> DP.y p' = Some ys ->
  forall i prev r, 1 <= i ->
  nth_error ys (i - 1) = Some prev -> nth_error ys i = Some r ->
  exists d, DP.derivs p prev = Ok d /\ length d = length prev /\
    r = map (fun '(a, da) => (a + DP.dt p * da)%float) (combine prev d).
Proof.
  intros Hs Hy i prev r Hi Hp Hr.
  pose proof (DP_facts.solve_cases p) as Hc. rewrite Hs in Hc.
  destruct Hc as [ys' [Ht ->]]. simpl in Hy. injection Hy as <-.
  destruct (DP_facts.trajectory_shape p ys' Ht) as [_ [_ [rs [-> Hrs]]]].
  replace i with (S (i - 1)) in Hr by lia.
  destruct (DP_facts.euler_rows_step _ _ _ _ Hrs (i - 1) prev r Hp Hr)
    as [d [Hd ->]].
  destruct (DP_facts.derivs_shape p prev d Hd) as [Lp Ld].
  exists d. split; [exact Hd|]. split; [congruence|].
  apply vadd_vscale_comm.
Qed.

(** Witness of C2: rows 0 and 1 of a three-row pendulum run. *)
Lemma C2_pendulum_euler_rows_witness :
  exists p p' ys prev r,
    DP.init 1 1 1 1 9.8 120 0 (-10) 0 0.03 0.01 = Ok p /\
    @DP.solve taylor_libm p = (p', None) /\ DP.y p' = Some ys /\
    nth_error ys 0 = Some prev /\ nth_error ys 1 = Some r /\
    exists d, @DP.derivs taylor_libm p prev = Ok d /\
      r = map (fun '(a, da) => (a + DP.dt p * da)%float) (combine prev d).
Proof.
  pose (p := ltac:(ok_value (DP.init 1 1 1 1 9.8 120 0 (-10) 0 0.03 0.01))
             : DP.DoublePendulum).
  pose (p' := fst (@DP.solve taylor_libm p)).
  pose (ys := match DP.y p' with Some ys => ys | None => [] end).
  pose (prev := nth 0 ys []). pose (r := nth 1 ys []).
  assert (Hi : DP.init 1 1 1 1 9.8 120 0 (-10) 0 0.03 0.01 = Ok p)
    by (vm_compute; reflexivity).
  assert (Hs : @DP.solve taylor_libm p = (p', None)) by (vm_compute; reflexivity).
  assert (Hy : DP.y p' = Some ys) by (vm_compute; reflexivity).
  assert (H0 : nth_error ys (1 - 1) = Some prev) by (vm_compute; reflexivity).
  assert (H1 : nth_error ys 1 = Some r) by (vm_compute; reflexivity).
  destruct (@C2_pendulum_euler_rows taylor_libm p p' ys Hs Hy 1 prev r
              (le_n 1) H0 H1) as [d [Hd [_ Hr]]].
  exists p, p', ys, prev, r. repeat split; auto. exists d. auto.
Defined.

(** C3.  For [L1 <> 0] (the spec's [L1 > 0]; [L2 / L1] is a division of
    Python floats and raises [ZeroDivisionError] at 0), the pendulum
    derivative evaluator returns exactly the closed-form rates of the spec. *)
Theorem C3_pendulum_rates `{Libm} (p : DP.DoublePendulum) th1 w1 th2 w2 :
  (DP.L1 p =? 0)%float = false ->
  DP.derivs p [th1; w1; th2; w2] =
  Ok (pendulum_rates_spec (DP.L1 p) (DP.L2 p) (DP.M1 p) (DP.M2 p) (DP.G p)
                          th1 w1 th2 w2).
Proof. intros HL. unfold DP.derivs, py_div. rewrite HL. reflexivity. Qed.

(** Witness of C3: the default pendulum at its initial state. *)
Lemma C3_pendulum_rates_witness :
  exists p, DP.init_default = Ok p /\ (DP.L1 p =? 0)%float = false /\
    @DP.derivs taylor_libm p (map deg2rad [120; 0; -10; 0]%float) =
    Ok (@pendulum_rates_spec taylor_libm 1 1 1 1 9.8
          (deg2rad 120) (deg2rad 0) (deg2rad (-10)) (deg2rad 0)).
Proof.
  pose (p := ltac:(ok_value DP.init_default) : DP.DoublePendulum).
  assert (Hi : DP.init_default = Ok p) by (vm_compute; reflexivity).
  assert (HL : (DP.L1 p =? 0)%float = false) by (vm_compute; reflexivity).
  exists p. split; [exact Hi|]. split; [exact HL|].
  exact (@C3_pendulum_rates taylor_libm p _ _ _ _ HL).
Defined.

(** C4 (code bug).  [_derivs] locates the force with [int(t*1/self.dt)],
    a truncation.  With the default [dt = 0.01], the grid instant [t[29]]
    gives [t/dt = 28.999999999999996], whose rounding is 29, yet the
    lookup reads index 28: with the force [F[i] = i] it returns 28. *)
Theorem C4_force_index_truncates :
  exists c t29, DPC.init_default = Ok c /\ nth_error (DPC.t c) 29 = Some t29 /\
    (t29 * 1 / DPC.dt c)%float = 28.999999999999996%float /\
    (28.5 <? t29 * 1 / DPC.dt c)%float = true /\
    DPC.force_index c t29 = Ok 28%Z /\
    DPC.force_at (DPC.set_control_force c (ramp_force 500)) t29 = Ok 28%float.
Proof.
  eexists; eexists. split; [reflexivity|]. split; [reflexivity|].
  repeat split; vm_compute; reflexivity.
Qed.

(** C5.  With [x_min < x_max], every stored cart row [i >= 1] is the Euler
    update of row [i - 1] passed once through the clamp: the angular entries
    keep their updated values; an [x] below [x_min] becomes [x_min] with
    [vx = 0]; otherwise an [x] above [x_max] becomes [x_max] with [vx = 0];
    otherwise the row is kept.  The stored [x] then fails both tests of the
    clamp, [x < x_min] and [x > x_max]; when it is not NaN this means
    [x_min <= x <= x_max] (a NaN [x] fails both tests and is kept). *)
Theorem C5_clamp_rows `{Libm} (c c' : DPC.DoublePendulumOnCart) ys :
  (DPC.x_min c <? DPC.x_max c)%float = true ->
  DPC.solve c = (c', None) -> DPC.y c' = Some ys ->
  forall i a r, 1 <= i ->
  nth_error ys (i - 1) = Some a -> nth_error ys i = Some r ->
  exists tc d u0 u1 u2 u3 ux uv xr vr,
    nth_error (DPC.t c) (i - 1) = Some tc /\ DPC.derivs c a tc = Ok d /\
    vadd a (vscale d (DPC.dt c)) = [u0; u1; u2; u3; ux; uv] /\
    r = [u0; u1; u2; u3; xr; vr] /\
    ((ux <? DPC.x_min c)%float = true -> xr = DPC.x_min c /\ vr = 0%float) /\
    ((ux <? DPC.x_min c)%float = false -> (DPC.x_max c <? ux)%float = true ->
       xr = DPC.x_max c /\ vr = 0%float) /\
    ((ux <? DPC.x_min c)%float = false -> (DPC.x_max c <? ux)%float = false ->
       xr = ux /\ vr = uv) /\
    (xr <? DPC.x_min c)%float = false /\ (DPC.x_max c <? xr)%float = false /\
    (is_nan xr = false ->
       (DPC.x_min c <=? xr)%float = true /\ (xr <=? DPC.x_max c)%float = true).
Proof.
  intros Hlt Hs Hy i a r Hi Ha Hr.
  destruct (DPC_facts.stored_row_step c c' ys Hs Hy i a r Hi Ha Hr)
    as (tc & d & u0 & u1 & u2 & u3 & ux & uv & Htc & Hd & Eu & ->).
  destruct (clamp_cases c u0 u1 u2 u3 ux uv Hlt)
    as (xr & vr & Ec & C1 & C2 & C3 & Lo & Hi').
  destruct (float_ltb_not_nan _ _ Hlt) as [Nmin Nmax].
  exists tc, d, u0, u1, u2, u3, ux, uv, xr, vr.
  refine (conj Htc (conj Hd (conj Eu (conj Ec
            (conj C1 (conj C2 (conj C3 (conj Lo (conj Hi' _))))))))).
  intros Nx. split; apply float_not_ltb_leb; assumption.
Qed.

(** Witness of C5: row 1 of a three-row run of the default cart. *)
Lemma C5_clamp_rows_witness :
  exists c c' ys a r, DPC.init_time 0.03 0.01 = Ok c /\
    (DPC.x_min c <? DPC.x_max c)%float = true /\
    @DPC.solve taylor_libm c = (c', None) /\ DPC.y c' = Some ys /\
    nth_error ys 0 = Some a /\ nth_error ys 1 = Some r /\
    exists xr, nth_error r 4 = Some xr /\
      (xr <? DPC.x_min c)%float = false /\ (DPC.x_max c <? xr)%float = false.
Proof.
  pose (c := ltac:(ok_value (DPC.init_time 0.03 0.01)) : DPC.DoublePendulumOnCart).
  pose (c' := fst (@DPC.solve taylor_libm c)).
  pose (ys := match DPC.y c' with Some ys => ys | None => [] end).
  pose (a := nth 0 ys []). pose (r := nth 1 ys []).
  assert (Hi : DPC.init_time 0.03 0.01 = Ok c) by (vm_compute; reflexivity).
  assert (Hlt : (DPC.x_min c <? DPC.x_max c)%float = true)
    by (vm_compute; reflexivity).
  assert (Hs : @DPC.solve taylor_libm c = (c', None)) by (vm_compute; reflexivity).
  assert (Hy : DPC.y c' = Some ys) by (vm_compute; reflexivity).
  assert (H0 : nth_error ys (1 - 1) = Some a) by (vm_compute; reflexivity).
  assert (H1 : nth_error ys 1 = Some r) by (vm_compute; reflexivity).
  destruct (@C5_clamp_rows taylor_libm c c' ys Hlt Hs Hy 1 a r (le_n 1) H0 H1)
    as (tc & d & u0 & u1 & u2 & u3 & ux & uv & xr & vr &
        _ & _ & _ & Er & _ & _ & _ & Lo & Up & _).
  exists c, c', ys, a, r. repeat (split; [assumption|]).
  exists xr. rewrite Er. split; [reflexivity|]. split; assumption.
Defined.

(** C5 counterexample: [x_min <= x <= x_max] can fail in a stored row.
    With [Mc = 1e-20] the sum [M1 + M2 + Mc] rounds to 2, [den1] is
    [2 - 1 - 1 = 0] at the upright-down start, and [d(w1)/dt] is [0/0]:
    NaN reaches [vx] in row 1 and [x] in row 2, where both tests of the
    clamp are false.  Only [sin 0 = 0] and [cos 0 = 1] are used. *)
Lemma C5_nan_escapes_clamp :
  exists c, DPC.init 1 1 1 1 1e-20 9.8 (-1) 1 (-10) 10 0 0 0 0 0 0 0.03 0.01
            = Ok c /\
    (DPC.x_min c <? DPC.x_max c)%float = true /\
    forall L : Libm, np_sin 0 = 0%float -> np_cos 0 = 1%float ->
    exists ys r xr, DPC.solve c = (DPC.set_y c (Some ys), None) /\
      nth_error ys 2 = Some r /\ nth_error r 4 = Some xr /\
      is_nan xr = true /\
      (DPC.x_min c <=? xr)%float = false /\ (xr <=? DPC.x_max c)%float = false.
Proof.
  pose (c := ltac:(ok_value
    (DPC.init 1 1 1 1 1e-20 9.8 (-1) 1 (-10) 10 0 0 0 0 0 0 0.03 0.01))
    : DPC.DoublePendulumOnCart).
  exists c. split; [vm_compute; reflexivity|]. split; [vm_compute; reflexivity|].
  intros [sn cs] Hs Hc. simpl in Hs, Hc. do 3 eexists. split.
  { repeat progress (cbv; rewrite ?Hs, ?Hc). reflexivity. }
  split; [reflexivity|]. split; [reflexivity|].
  split; [|split]; vm_compute; reflexivity.
Qed.

(** C6.  With [x_min < x_max], no stored cart row [i >= 1] has [x] above
    [x_max]; [vx] is 0 in every row whose Euler update took [x] below
    [x_min] or above [x_max]; and a row whose update stays within the
    bounds keeps the updated [vx].  So [vx] is 0 in a clamped row, but
    not necessarily in the rows after it. *)
Theorem C6_clamp_velocity `{Libm} (c c' : DPC.DoublePendulumOnCart) ys :
  (DPC.x_min c <? DPC.x_max c)%float = true ->
  DPC.solve c = (c', None) -> DPC.y c' = Some ys ->
  forall i r, 1 <= i -> nth_error ys i = Some r ->
  exists a tc d u0 u1 u2 u3 ux uv xr vr,
    nth_error ys (i - 1) = Some a /\ nth_error (DPC.t c) (i - 1) = Some tc /\
    DPC.derivs c a tc = Ok d /\
    vadd a (vscale d (DPC.dt c)) = [u0; u1; u2; u3; ux; uv] /\
    r = [u0; u1; u2; u3; xr; vr] /\
    (DPC.x_max c <? xr)%float = false /\
    ((ux <? DPC.x_min c)%float = true \/ (DPC.x_max c <? ux)%float = true ->
       vr = 0%float) /\
    ((ux <? DPC.x_min c)%float = false -> (DPC.x_max c <? ux)%float = false ->
       vr = uv).
Proof.
  intros Hlt Hs Hy i r Hi Hr.
  destruct (nth_error ys (i - 1)) as [a|] eqn:Ha.
  2:{ apply nth_error_None in Ha.
      assert (Hr' : nth_error ys i <> None) by congruence.
      apply nth_error_Some in Hr'. lia. }
  destruct (DPC_facts.stored_row_step c c' ys Hs Hy i a r Hi Ha Hr)
    as (tc & d & u0 & u1 & u2 & u3 & ux & uv & Htc & Hd & Eu & ->).
  destruct (clamp_cases c u0 u1 u2 u3 ux uv Hlt)
    as (xr & vr & Ec & C1 & C2 & C3 & _ & Up).
  exists a, tc, d, u0, u1, u2, u3, ux, uv, xr, vr.
  refine (conj eq_refl (conj Htc (conj Hd (conj Eu (conj Ec (conj Up _)))))).
  split.
  - intros Hout. destruct (ux <? DPC.x_min c)%float eqn:E1.
    + apply C1; reflexivity.
    + destruct Hout as [Hout|Hout]; [discriminate|]. apply C2; auto.
  - intros E1 E2. apply C3; assumption.
Qed.

(** Witness of C6: row 1 of the bounded-cart run of the counterexample
    below, with the polynomial [sin] and [cos]. *)
Lemma C6_clamp_velocity_witness :
  exists c c' ys r,
    DPC.init 1 1 1 1 1 9.8 (-0.1) 0.1 (-10) 10 0 0 0 0 0.095 1 0.03 0.01
      = Ok c /\
    (DPC.x_min c <? DPC.x_max c)%float = true /\
    @DPC.solve taylor_libm c = (c', None) /\ DPC.y c' = Some ys /\
    nth_error ys 1 = Some r /\
    exists xr vr, nth_error r 4 = Some xr /\ nth_error r 5 = Some vr /\
      (DPC.x_max c <? xr)%float = false.
Proof.
  pose (c := ltac:(ok_value
    (DPC.init 1 1 1 1 1 9.8 (-0.1) 0.1 (-10) 10 0 0 0 0 0.095 1 0.03 0.01))
    : DPC.DoublePendulumOnCart).
  pose (c' := fst (@DPC.solve taylor_libm c)).
  pose (ys := match DPC.y c' with Some ys => ys | None => [] end).
  pose (r := nth 1 ys []).
  assert (Hi : DPC.init 1 1 1 1 1 9.8 (-0.1) 0.1 (-10) 10 0 0 0 0 0.095 1 0.03 0.01
               = Ok c) by (vm_compute; reflexivity).
  assert (Hlt : (DPC.x_min c <? DPC.x_max c)%float = true)
    by (vm_compute; reflexivity).
  assert (Hs : @DPC.solve taylor_libm c = (c', None)) by (vm_compute; reflexivity).
  assert (Hy : DPC.y c' = Some ys) by (vm_compute; reflexivity).
  assert (H1 : nth_error ys 1 = Some r) by (vm_compute; reflexivity).
  destruct (@C6_clamp_velocity taylor_libm c c' ys Hlt Hs Hy 1 r (le_n 1) H1)
    as (a & tc & d & u0 & u1 & u2 & u3 & ux & uv & xr & vr &
        _ & _ & _ & _ & Er & Up & _ & _).
  exists c, c', ys, r. repeat (split; [assumption|]).
  exists xr, vr. rewrite Er. split; [reflexivity|]. split; [reflexivity|].
  exact Up.
Defined.

(** C6 counterexample: a cart with [x_min = -0.1], [x_max = 0.1], starting
    at [x = 0.095] with [vx = 1], under the constant force 50.  Row 1 is
    clamped ([x = 0.1], [vx = 0]); row 2 is [0.1 + 0 * dt = 0.1], which is
    not above [x_max], so it is not clamped and keeps [vx = 0.5].  Only
    [sin 0 = 0] and [cos 0 = 1] are used. *)
Lemma C6_velocity_after_clamp :
  exists c, DPC.init 1 1 1 1 1 9.8 (-0.1) 0.1 (-10) 10 0 0 0 0 0.095 1 0.03 0.01
            = Ok c /\
    forall L : Libm, np_sin 0 = 0%float -> np_cos 0 = 1%float ->
    let cF := DPC.set_control_force c (repeat 50%float 3) in
    exists ys r1 r2, DPC.solve cF = (DPC.set_y cF (Some ys), None) /\
      nth_error ys 1 = Some r1 /\ nth_error ys 2 = Some r2 /\
      nth_error r1 4 = Some 0.1%float /\ nth_error r1 5 = Some 0%float /\
      nth_error r2 4 = Some 0.1%float /\ nth_error r2 5 = Some 0.5%float.
Proof.
  pose (c := ltac:(ok_value
    (DPC.init 1 1 1 1 1 9.8 (-0.1) 0.1 (-10) 10 0 0 0 0 0.095 1 0.03 0.01))
    : DPC.DoublePendulumOnCart).
  exists c. split; [vm_compute; reflexivity|].
  intros [sn cs] Hs Hc. simpl in Hs, Hc. intros cF. do 3 eexists. split.
  { repeat progress (cbv; rewrite ?Hs, ?Hc). reflexivity. }
  repeat split; reflexivity.
Qed.

(** C7 (code bug).  The spec requires the control force and the grid to
    have consistent lengths before [solve]; the code does not keep them so.
    The constructor sizes the force by [int(t_stop*1/dt)], a truncation,
    and the grid by [np.arange], a ceiling: for [t_stop = 1], [dt = 0.3]
    the grid has 4 instants and the force 3 entries; whatever [sin] and
    [cos] are, [solve] completes and [save] then raises [IndexError].
    [set_random_control_force] sizes the force by
    [int(t_stop) * int(1/dt)]: for [t_stop = 1.5], [dt = 0.5] it gives 2
    entries for 3 instants, with the same outcome.  [set_time_parameters]
    rebuilds the grid alone: the default cart after
    [set_time_parameters(10, 0.01)] has 500 forces for 1000 instants, and
    [solve] raises [IndexError]. *)
Theorem C7_force_grid_mismatch :
  (exists c, DPC.init_time 1 0.3 = Ok c /\
     length (DPC.t c) = 4 /\ length (DPC.control_force c) = 3 /\
     forall L : Libm, exists ys, DPC.solve c = (DPC.set_y c (Some ys), None) /\
       snd (DPC.save (DPC.set_y c (Some ys)) (Script.filename Script.cart_path 0)) = Some IndexError) /\
  (exists c c2 g, DPC.init_time 1.5 0.5 = Ok c /\
     length (DPC.t c) = 3 /\ length (DPC.control_force c) = 3 /\
     DPC.set_random_control_force const_uniform c (-10) 10 0 = (c2, g, None) /\
     length (DPC.t c2) = 3 /\ length (DPC.control_force c2) = 2 /\
     forall L : Libm, exists ys, DPC.solve c2 = (DPC.set_y c2 (Some ys), None) /\
       snd (DPC.save (DPC.set_y c2 (Some ys)) (Script.filename Script.cart_path 0)) = Some IndexError) /\
  (exists c c2, DPC.init_default = Ok c /\
     length (DPC.t c) = 500 /\ length (DPC.control_force c) = 500 /\
     DPC.set_time_parameters c 10 0.01 = (c2, None) /\
     length (DPC.t c2) = 1000 /\ length (DPC.control_force c2) = 500 /\
     forall L : Libm, DPC.solve c2 = (c2, Some IndexError)).
Proof.
  split; [|split].
  - pose (c := ltac:(ok_value (DPC.init_time 1 0.3)) : DPC.DoublePendulumOnCart).
    exists c. split; [vm_compute; reflexivity|].
    split; [vm_compute; reflexivity|]. split; [vm_compute; reflexivity|].
    intros L.
    destruct (cart_solve_total c ltac:(vm_compute; reflexivity)
                ltac:(vm_compute; discriminate) ltac:(vm_compute; reflexivity))
      as [ys [Hs [_ Hl]]].
    exists ys. split; [exact Hs|].
    unfold DPC.save. cbn [DPC.y DPC.t DPC.control_force DPC.set_y].
    rewrite (dpc_save_rows_seq (DPC.control_force c) ys 0 (length (DPC.t c)) ltac:(lia)).
    rewrite Hl. vm_compute. reflexivity.
  - pose (c := ltac:(ok_value (DPC.init_time 1.5 0.5)) : DPC.DoublePendulumOnCart).
    pose (c2 := fst (fst (DPC.set_random_control_force const_uniform c (-10) 10 0))).
    pose (g := snd (fst (DPC.set_random_control_force const_uniform c (-10) 10 0))).
    exists c, c2, g. split; [vm_compute; reflexivity|].
    split; [vm_compute; reflexivity|]. split; [vm_compute; reflexivity|].
    split; [vm_compute; reflexivity|].
    split; [vm_compute; reflexivity|]. split; [vm_compute; reflexivity|].
    intros L.
    destruct (cart_solve_total c2 ltac:(vm_compute; reflexivity)
                ltac:(vm_compute; discriminate) ltac:(vm_compute; reflexivity))
      as [ys [Hs [_ Hl]]].
    exists ys. split; [exact Hs|].
    unfold DPC.save. cbn [DPC.y DPC.t DPC.control_force DPC.set_y].
    rewrite (dpc_save_rows_seq (DPC.control_force c2) ys 0 (length (DPC.t c2)) ltac:(vm_compute; lia)).
    rewrite Hl. vm_compute. reflexivity.
  - pose (c := ltac:(ok_value DPC.init_default) : DPC.DoublePendulumOnCart).
    pose (c2 := fst (DPC.set_time_parameters c 10 0.01)).
    exists c, c2. split; [vm_compute; reflexivity|].
    split; [vm_compute; reflexivity|]. split; [vm_compute; reflexivity|].
    split; [vm_compute; reflexivity|].
    split; [vm_compute; reflexivity|]. split; [vm_compute; reflexivity|].
    intros L. apply cart_solve_index_error; vm_compute; reflexivity.
Qed.

(** C8.  [set_random_control_force] draws [int(t_stop)] values (one per
    whole second) and repeats each [int(1/dt)] times in consecutive blocks,
    where [int] truncates; the bounds become [f_min] and [f_max].  For any
    generator returning as many samples as asked, the sequence has
    [int(t_stop) * int(1/dt)] entries; for [t_stop = 3], [dt = 0.01] it has
    300 entries in three blocks of 100 equal values. *)
Theorem C8_staircase {Rng : Type}
  (uniform : Rng -> float -> float -> nat -> list float * Rng)
  (Hlen : forall g lo hi m, length (fst (uniform g lo hi m)) = m) :
  (forall c c' lo hi g g',
     DPC.set_random_control_force uniform c lo hi g = (c', g', None) ->
     exists n q k draws,
       py_int (DPC.t_stop c) = Ok n /\ py_div 1 (DPC.dt c) = Ok q /\
       py_int q = Ok k /\ uniform g lo hi (Z.to_nat n) = (draws, g') /\
       DPC.f_min c' = lo /\ DPC.f_max c' = hi /\
       length (DPC.control_force c') = (Z.to_nat n * Z.to_nat k)%nat /\
       (forall j v m, nth_error draws j = Some v -> m < Z.to_nat k ->
          nth_error (DPC.control_force c') (j * Z.to_nat k + m) = Some v)) /\
  (forall c lo hi g, DPC.init_time 3 0.01 = Ok c ->
     exists c' g' draws,
       DPC.set_random_control_force uniform c lo hi g = (c', g', None) /\
       uniform g lo hi 3 = (draws, g') /\
       length (DPC.control_force c') = 300%nat /\
       (forall j v m, nth_error draws j = Some v -> m < 100 ->
          nth_error (DPC.control_force c') (j * 100 + m) = Some v)).
Proof.
  split.
  - intros c c' lo hi g g' Hs.
    destruct (set_random_inv uniform c c' lo hi g g' Hs)
      as (n & q & k & draws & Hn & _ & Hu & Hq & Hk & _ & ->).
    exists n, q, k, draws. repeat split; auto.
    + simpl. rewrite length_flat_map_repeat.
      pose proof (Hlen g lo hi (Z.to_nat n)) as L. rewrite Hu in L.
      simpl in L. rewrite L. reflexivity.
    + intros j v m Hj Hm. apply nth_error_flat_map_repeat; assumption.
  - intros c lo hi g Hi.
    pose (c0 := ltac:(ok_value (DPC.init_time 3 0.01)) : DPC.DoublePendulumOnCart).
    assert (E : DPC.init_time 3 0.01 = Ok c0) by (vm_compute; reflexivity).
    rewrite E in Hi. injection Hi as Hc. subst c.
    destruct (uniform g lo hi 3) as [draws g'] eqn:Hu.
    exists (DPC.set_control_force (DPC.set_force_bounds c0 lo hi)
              (flat_map (fun v => repeat v (Z.to_nat 100)) draws)), g', draws.
    split.
    { apply (set_random_ok uniform c0 lo hi g g' 3 100 100);
        try (vm_compute; reflexivity); try lia; exact Hu. }
    split; [reflexivity|]. split.
    + cbn [DPC.control_force DPC.set_control_force].
      rewrite length_flat_map_repeat.
      pose proof (Hlen g lo hi 3) as L. rewrite Hu in L.
      simpl in L. rewrite L. reflexivity.
    + intros j v m Hj Hm. apply (nth_error_flat_map_repeat draws 100); assumption.
Qed.

(** Witness of C8: a generator that always draws [lo]. *)
Lemma C8_staircase_witness :
  (forall g lo hi m, length (fst (const_uniform g lo hi m)) = m) /\
  exists c c' g' draws, DPC.init_time 3 0.01 = Ok c /\
    DPC.set_random_control_force const_uniform c (-10) 10 0 = (c', g', None) /\
    const_uniform 0 (-10) 10 3 = (draws, g') /\
    length (DPC.control_force c') = 300%nat.
Proof.
  assert (Hlen : forall g lo hi m, length (fst (const_uniform g lo hi m)) = m)
    by (intros; apply repeat_length).
  split; [exact Hlen|].
  pose (c := ltac:(ok_value (DPC.init_time 3 0.01)) : DPC.DoublePendulumOnCart).
  assert (Hi : DPC.init_time 3 0.01 = Ok c) by (vm_compute; reflexivity).
  destruct (proj2 (@C8_staircase nat const_uniform Hlen) c (-10)%float 10%float
              0 Hi) as (c' & g' & draws & Hs & Hu & Hl & _).
  exists c, c', g', draws. auto.
Defined.

(** C8 counterexample: with [t_stop = 3] and [dt = 0.15], [1 / dt] is
    6.666666666666667, whose rounding is 7, but [int] gives 6: for any
    generator returning as many samples as asked the sequence has
    [3 * 6 = 18] entries, not [3 * 7 = 21]. *)
Lemma C8_repeat_truncates :
  exists c, DPC.init_time 3 0.15 = Ok c /\
    py_div 1 (DPC.dt c) = Ok 6.666666666666667%float /\
    py_int 6.666666666666667%float = Ok 6%Z /\
    (6.5 <? 6.666666666666667)%float = true /\
    forall (Rng : Type) (uniform : Rng -> float -> float -> nat -> list float * Rng),
      (forall g lo hi m, length (fst (uniform g lo hi m)) = m) ->
      forall lo hi g, exists c' g',
        DPC.set_random_control_force uniform c lo hi g = (c', g', None) /\
        length (DPC.control_force c') = 18%nat.
Proof.
  pose (c := ltac:(ok_value (DPC.init_time 3 0.15)) : DPC.DoublePendulumOnCart).
  exists c. split; [vm_compute; reflexivity|].
  split; [vm_compute; reflexivity|]. split; [reflexivity|].
  split; [reflexivity|].
  intros Rng uniform Hlen lo hi g.
  destruct (uniform g lo hi 3) as [draws g'] eqn:Hu.
  exists (DPC.set_control_force (DPC.set_force_bounds c lo hi)
            (flat_map (fun v => repeat v (Z.to_nat 6)) draws)), g'.
  split.
  - apply (set_random_ok uniform c lo hi g g' 3 6.666666666666667%float 6);
      try (vm_compute; reflexivity); try lia; exact Hu.
  - cbn [DPC.control_force DPC.set_control_force].
    rewrite length_flat_map_repeat.
    pose proof (Hlen g lo hi 3) as L. rewrite Hu in L.
    simpl in L. rewrite L. reflexivity.
Qed.

(** C9.  [solve] assigns [self.y] only after the loop: on a fault (an
    exception raised by [_derivs], such as the [IndexError] of the force
    lookup) the container is returned unchanged, previous [y] included;
    otherwise [y] is replaced by the full trajectory, one row per grid
    instant.  For both systems. *)
Theorem C9_solve_atomic `{Libm} :
  (forall p : DP.DoublePendulum,
     match DP.solve p with
     | (p', Some _) => p' = p
     | (p', None) =>
         exists ys, p' = DP.set_y p (Some ys) /\ length ys = length (DP.t p)
     end) /\
  (forall c : DPC.DoublePendulumOnCart,
     match DPC.solve c with
     | (c', Some _) => c' = c
     | (c', None) =>
         exists ys, c' = DPC.set_y c (Some ys) /\ length ys = length (DPC.t c)
     end).
Proof.
  split.
  - intros p. pose proof (DP_facts.solve_cases p) as Hc.
    destruct (DP.solve p) as [p' [e|]].
    + apply Hc.
    + destruct Hc as [ys [Ht ->]]. exists ys. split; [reflexivity|].
      apply (DP_facts.trajectory_shape p ys Ht).
  - intros c. pose proof (DPC_facts.cart_solve_cases c) as Hc.
    destruct (DPC.solve c) as [c' [e|]].
    + apply Hc.
    + destruct Hc as [ys [Ht ->]]. exists ys. split; [reflexivity|].
      apply (DPC_facts.cart_trajectory_shape c ys Ht).
Qed.

(** C10.  [solve] changes no field but [y]: the container it returns is
    the given one with [y] replaced (parameters, initial conditions, state,
    grid and, for the cart, control force untouched), and a second [solve]
    stores the same trajectory as the first.  For both systems. *)
Theorem C10_solve_frame `{Libm} :
  (forall p : DP.DoublePendulum,
     fst (DP.solve p) = DP.set_y p (DP.y (fst (DP.solve p))) /\
     DP.y (fst (DP.solve (fst (DP.solve p)))) = DP.y (fst (DP.solve p))) /\
  (forall c : DPC.DoublePendulumOnCart,
     fst (DPC.solve c) = DPC.set_y c (DPC.y (fst (DPC.solve c))) /\
     DPC.y (fst (DPC.solve (fst (DPC.solve c)))) = DPC.y (fst (DPC.solve c))).
Proof.
  split.
  - intros p. pose proof (DP_facts.solve_cases p) as Hc.
    destruct (DP.solve p) as [p' [e|]] eqn:Es; simpl.
    + destruct Hc as [-> _]. rewrite Es.
      split; [destruct p; reflexivity | reflexivity].
    + destruct Hc as [ys [Ht ->]]. split; [reflexivity|].
      unfold DP.solve at 1. rewrite DP_facts.trajectory_set_y, Ht. reflexivity.
  - intros c. pose proof (DPC_facts.cart_solve_cases c) as Hc.
    destruct (DPC.solve c) as [c' [e|]] eqn:Es; simpl.
    + destruct Hc as [-> _]. rewrite Es.
      split; [destruct c; reflexivity | reflexivity].
    + destruct Hc as [ys [Ht ->]]. split; [reflexivity|].
      unfold DPC.solve at 1. rewrite DPC_facts.cart_trajectory_set_y, Ht. reflexivity.
Qed.

(** ** Further properties of the code *)

(** Every row the pendulum's Euler loop builds from a four-entry state has
    four entries. *)
Lemma dp_euler_rows_rows `{Libm} (p : DP.DoublePendulum) n prev rs :
  DP.euler_rows p n prev = Ok rs -> Forall (fun r => length r = 4) rs.
Proof.
  revert prev rs. induction n as [|n IH]; intros prev rs Hr; simpl in Hr.
  - injection Hr as <-. constructor.
  - apply bind_Ok in Hr as [d [Hd Hr]]. apply bind_Ok in Hr as [rs' [Hr' E]].
    injection E as <-. destruct (DP_facts.derivs_shape p prev d Hd) as [Lp Ld].
    constructor; [|eapply IH; eauto].
    rewrite length_vadd, length_vscale, Lp, Ld. reflexivity.
Qed.

Lemma dp_trajectory_rows `{Libm} (p : DP.DoublePendulum) ys :
  DP.trajectory p = Ok ys -> length (DP.state p) = 4 ->
  Forall (fun r => length r = 4) ys.
Proof.
  intros Hy Hs. destruct (DP_facts.trajectory_shape p ys Hy) as [_ [_ [rs [-> Hrs]]]].
  constructor; [exact Hs | eapply dp_euler_rows_rows; eauto].
Qed.

(** With [L1 = 0] the first Euler step raises. *)
Lemma dp_euler_rows_L1_zero `{Libm} (p : DP.DoublePendulum) n prev :
  (DP.L1 p =? 0)%float = true -> length prev = 4 ->
  DP.euler_rows p (S n) prev = Err ZeroDivisionError.
Proof.
  intros HL Hp. destruct prev as [|s0 [|s1 [|s2 [|s3 [|]]]]]; try discriminate.
  simpl. unfold py_div. rewrite HL. reflexivity.
Qed.

(** X1.  [DoublePendulum.save] on a stored array of four-entry rows writes
    the header and then the rows [y[0] .. y[len(t)-1]] that exist; it ends
    with [IndexError] exactly when the grid has more instants than [y] has
    rows. *)
Theorem X1_pendulum_save_rows (p : DP.DoublePendulum) (filename : String.string) ys :
  DP.y p = Some ys -> Forall (fun r => length r = 4) ys ->
  DP.save p filename =
  (Some (filename, Csv.Header DP.header
                   :: map Csv.Data (firstn (length (DP.t p)) ys)),
   if length (DP.t p) <=? length ys then None else Some IndexError).
Proof.
  intros Hy Hr. unfold DP.save. rewrite Hy.
  rewrite (dp_save_rows_seq ys 0 (length (DP.t p)) Hr ltac:(lia)).
  reflexivity.
Qed.

(** X2.  After a [solve] that raises nothing, [save] raises nothing and
    writes the header followed by exactly the rows of the computed
    trajectory, one per instant. *)
Theorem X2_pendulum_solve_save `{Libm} (p p' : DP.DoublePendulum) (filename : String.string) :
  DP.solve p = (p', None) -> length (DP.state p) = 4 ->
  exists ys, DP.trajectory p = Ok ys /\ DP.y p' = Some ys /\
    length ys = length (DP.t p) /\
    DP.save p' filename = (Some (filename, Csv.Header DP.header :: map Csv.Data ys), None).
Proof.
  intros Hs Hst. pose proof (DP_facts.solve_cases p) as Hc. rewrite Hs in Hc.
  destruct Hc as [ys [Ht ->]].
  destruct (DP_facts.trajectory_shape p ys Ht) as [Hl _].
  exists ys. refine (conj Ht (conj eq_refl (conj Hl _))).
  unfold DP.save. cbn [DP.y DP.t DP.set_y].
  rewrite (dp_save_rows_seq ys 0 (length (DP.t p)) (dp_trajectory_rows p ys Ht Hst) ltac:(lia)).
  rewrite skipn_O, <- Hl, firstn_all, Nat.leb_refl. reflexivity.
Qed.

(** X3.  On a four-entry state, [solve] raises [IndexError] on an empty
    grid, [ZeroDivisionError] when [L1] is zero and the grid has at least
    two instants, and nothing otherwise. *)
Theorem X3_pendulum_solve_errors `{Libm} (p : DP.DoublePendulum) :
  length (DP.state p) = 4 ->
  snd (DP.solve p) =
  match DP.t p with
  | [] => Some IndexError
  | _ :: _ => if (DP.L1 p =? 0)%float && (2 <=? length (DP.t p))
              then Some ZeroDivisionError else None
  end.
Proof.
  intros Hs. unfold DP.solve, DP.trajectory.
  destruct (DP.t p) as [|t0 ts] eqn:Et; [reflexivity|].
  cbn [length]. replace (S (length ts) - 1) with (length ts) by lia.
  destruct (DP.L1 p =? 0)%float eqn:HL.
  - destruct ts as [|t1 ts]; [reflexivity|].
    cbn [length]. rewrite (dp_euler_rows_L1_zero p (length ts) _ HL Hs). reflexivity.
  - destruct (DP_facts.euler_rows_total p (length ts) (DP.state p) Hs HL) as [rs Hrs].
    rewrite Hrs. reflexivity.
Qed.

Local Open Scope string_scope.

Lemma X1_pendulum_save_rows_witness :
  exists p ys,
    DP.init 1 1 1 1 9.8 120 0 (-10) 0 1 0.25 = Ok p /\
    DP.y (fst (DP.set_time_parameters (fst (@DP.solve taylor_libm p)) 1 0.125)) = Some ys /\
    Forall (fun r => length r = 4) ys /\ length ys = 4 /\
    DP.save (fst (DP.set_time_parameters (fst (@DP.solve taylor_libm p)) 1 0.125)) "f.csv"
    = (Some ("f.csv", Csv.Header DP.header :: map Csv.Data ys), Some IndexError).
Proof.
  pose (p := ltac:(ok_value (DP.init 1 1 1 1 9.8 120 0 (-10) 0 1 0.25)) : DP.DoublePendulum).
  pose (q := fst (DP.set_time_parameters (fst (@DP.solve taylor_libm p)) 1 0.125)).
  pose (ys := ltac:(let v := eval vm_compute in (DP.y q) in
                    match v with Some ?a => exact a end) : list (list float)).
  assert (Ey : DP.y q = Some ys) by (vm_compute; reflexivity).
  assert (Fy : Forall (fun r => length r = 4) ys) by (vm_compute; repeat constructor).
  exists p, ys. refine (conj _ (conj Ey (conj Fy (conj _ _)))).
  - vm_compute. reflexivity.
  - vm_compute. reflexivity.
  - change (DP.save q "f.csv" = (Some ("f.csv", Csv.Header DP.header :: map Csv.Data ys), Some IndexError)).
    rewrite (X1_pendulum_save_rows q "f.csv" ys Ey Fy). vm_compute. reflexivity.
Defined.

Lemma X2_pendulum_solve_save_witness :
  exists p ys,
    DP.init 1 1 1 1 9.8 120 0 (-10) 0 1 0.25 = Ok p /\
    @DP.solve taylor_libm p = (DP.set_y p (Some ys), None) /\ length ys = 4 /\
    DP.save (DP.set_y p (Some ys)) "f.csv"
    = (Some ("f.csv", Csv.Header DP.header :: map Csv.Data ys), None).
Proof.
  pose (p := ltac:(ok_value (DP.init 1 1 1 1 9.8 120 0 (-10) 0 1 0.25)) : DP.DoublePendulum).
  assert (Hs : length (DP.state p) = 4) by (vm_compute; reflexivity).
  pose (ys := ltac:(ok_value (@DP.trajectory taylor_libm p)) : list (list float)).
  assert (Es : @DP.solve taylor_libm p = (DP.set_y p (Some ys), None))
    by (vm_compute; reflexivity).
  destruct (X2_pendulum_solve_save p (DP.set_y p (Some ys)) "f.csv" Es Hs)
    as [ys' [Ht [Hy [Hl Hsave]]]].
  cbn [DP.y DP.set_y] in Hy. injection Hy as <-.
  exists p, ys. refine (conj _ (conj Es (conj _ Hsave))).
  - vm_compute. reflexivity.
  - rewrite Hl. vm_compute. reflexivity.
Defined.

Lemma X3_pendulum_solve_errors_witness :
  exists p,
    DP.init 0 1 1 1 9.8 120 0 (-10) 0 1 0.25 = Ok p /\
    length (DP.state p) = 4 /\
    snd (@DP.solve taylor_libm p) = Some ZeroDivisionError.
Proof.
  pose (p := ltac:(ok_value (DP.init 0 1 1 1 9.8 120 0 (-10) 0 1 0.25)) : DP.DoublePendulum).
  assert (Hs : length (DP.state p) = 4) by (vm_compute; reflexivity).
  exists p. refine (conj _ (conj Hs _)); [vm_compute; reflexivity|].
  rewrite (X3_pendulum_solve_errors p Hs). vm_compute. reflexivity.
Defined.

(** The clamp of [solve] keeps the length of a row. *)
Lemma cart_euler_rows_forces `{Libm} (c : DPC.DoublePendulumOnCart) ts prev rs :
  DPC.euler_rows c ts prev = Ok rs ->
  forall tc, In tc ts -> exists F, DPC.force_at c tc = Ok F.
Proof.
  revert prev rs. induction ts as [|t0 ts IH]; intros prev rs Hr tc Hin;
    [destruct Hin|].
  simpl in Hr. apply bind_Ok in Hr as [d [Hd Hr]]. apply bind_Ok in Hr as [rs' [Hr' _]].
  destruct Hin as [<-|Hin]; [eapply cart_derivs_force; eauto | eapply IH; eauto].
Qed.

Lemma cart_euler_rows_rows `{Libm} (c : DPC.DoublePendulumOnCart) ts prev rs :
  DPC.euler_rows c ts prev = Ok rs -> Forall (fun r => length r = 6) rs.
Proof.
  revert prev rs. induction ts as [|t0 ts IH]; intros prev rs Hr; simpl in Hr.
  - injection Hr as <-. constructor.
  - apply bind_Ok in Hr as [d [Hd Hr]]. apply bind_Ok in Hr as [rs' [Hr' E]].
    injection E as <-. destruct (DPC_facts.cart_derivs_shape c prev t0 d Hd) as [Lp Ld].
    constructor; [|eapply IH; eauto].
    rewrite clamp_length, length_vadd, length_vscale, Lp, Ld. reflexivity.
Qed.

Lemma cart_trajectory_rows `{Libm} (c : DPC.DoublePendulumOnCart) ys :
  DPC.trajectory c = Ok ys -> length (DPC.state c) = 6 ->
  Forall (fun r => length r = 6) ys.
Proof.
  intros Hy Hs. destruct (DPC_facts.cart_trajectory_shape c ys Hy) as [_ [_ [rs [-> Hrs]]]].
  constructor; [exact Hs | eapply cart_euler_rows_rows; eauto].
Qed.

Lemma leb_min_r (n a : nat) : (n <=? Nat.min a n) = (n <=? a).
Proof.
  destruct (Nat.leb_spec n a); [apply Nat.leb_le | apply Nat.leb_gt]; lia.
Qed.

(** X4.  [DoublePendulumOnCart.save] on a stored array writes the header and
    then, for [i] in [range(len(t))], the row [control_force[i]] followed by
    [y[i]] while both exist; it ends with [IndexError] exactly when the grid
    has more instants than the force or [y] has entries. *)
Theorem X4_cart_save_rows (c : DPC.DoublePendulumOnCart) (filename : String.string) ys :
  DPC.y c = Some ys ->
  DPC.save c filename =
  (Some (filename, Csv.Header DPC.header
          :: map (fun '(f, r) => Csv.Data (f :: r))
                 (firstn (length (DPC.t c)) (combine (DPC.control_force c) ys))),
   if length (DPC.t c) <=? Nat.min (length (DPC.control_force c)) (length ys)
   then None else Some IndexError).
Proof.
  intros Hy. unfold DPC.save. rewrite Hy.
  rewrite (dpc_save_rows_seq (DPC.control_force c) ys 0 (length (DPC.t c)) ltac:(lia)).
  reflexivity.
Qed.

(** X5.  After a [solve] of the cart that raises nothing, [save] writes one
    row of seven numbers per instant, [control_force[i]] then the six entries
    of [y[i]], and raises [IndexError] (after the rows that exist) exactly
    when the control force has fewer entries than the grid has instants. *)
Theorem X5_cart_solve_save `{Libm} (c c' : DPC.DoublePendulumOnCart) (filename : String.string) :
  DPC.solve c = (c', None) -> length (DPC.state c) = 6 ->
  exists ys, DPC.trajectory c = Ok ys /\ DPC.y c' = Some ys /\
    length ys = length (DPC.t c) /\ Forall (fun r => length r = 6) ys /\
    DPC.save c' filename =
    (Some (filename, Csv.Header DPC.header
            :: map (fun '(f, r) => Csv.Data (f :: r))
                   (combine (firstn (length (DPC.t c)) (DPC.control_force c)) ys)),
     if length (DPC.t c) <=? length (DPC.control_force c) then None else Some IndexError).
Proof.
  intros Hs Hst. pose proof (DPC_facts.cart_solve_cases c) as Hc. rewrite Hs in Hc.
  destruct Hc as [ys [Ht ->]].
  destruct (DPC_facts.cart_trajectory_shape c ys Ht) as [Hl _].
  exists ys.
  refine (conj Ht (conj eq_refl (conj Hl (conj (cart_trajectory_rows c ys Ht Hst) _)))).
  unfold DPC.save. cbn [DPC.y DPC.t DPC.control_force DPC.set_y].
  rewrite (dpc_save_rows_seq (DPC.control_force c) ys 0 (length (DPC.t c)) ltac:(lia)).
  rewrite skipn_O, combine_firstn, <- Hl, firstn_all, leb_min_r. reflexivity.
Qed.

(** X6.  On a six-entry state, the cart's [solve] raises nothing exactly
    when the grid is not empty and the control force can be looked up at
    every instant of the grid but the last. *)
Theorem X6_cart_solve_succeeds `{Libm} (c : DPC.DoublePendulumOnCart) :
  length (DPC.state c) = 6 ->
  (snd (DPC.solve c) = None <->
   DPC.t c <> [] /\
   forall tc, In tc (removelast (DPC.t c)) -> exists F, DPC.force_at c tc = Ok F).
Proof.
  intros Hs. unfold DPC.solve, DPC.trajectory.
  destruct (DPC.t c) as [|t0 ts] eqn:Et.
  - split; [discriminate|]. intros [H0 _]. exfalso. apply H0. reflexivity.
  - destruct (DPC.euler_rows c (removelast (t0 :: ts)) (DPC.state c)) as [rs|e] eqn:Er;
      cbn [bind snd]; split.
    + intros _. split; [discriminate|]. eapply cart_euler_rows_forces; eauto.
    + reflexivity.
    + discriminate.
    + intros [_ HF]. destruct (cart_euler_rows_ok c _ _ Hs HF) as [rs Hrs]. congruence.
Qed.

Lemma X4_cart_save_rows_witness :
  exists c ys,
    DPC.init_time 1 0.25 = Ok c /\
    DPC.y (DPC.set_control_force (fst (@DPC.solve taylor_libm c)) [1; 2]%float) = Some ys /\
    length ys = 4 /\
    DPC.save (DPC.set_control_force (fst (@DPC.solve taylor_libm c)) [1; 2]%float) "f.csv"
    = (Some ("f.csv", Csv.Header DPC.header
                      :: map (fun '(f, r) => Csv.Data (f :: r)) (combine [1; 2]%float ys)),
       Some IndexError).
Proof.
  pose (c := ltac:(ok_value (DPC.init_time 1 0.25)) : DPC.DoublePendulumOnCart).
  pose (c2 := DPC.set_control_force (fst (@DPC.solve taylor_libm c)) [1; 2]%float).
  pose (ys := ltac:(let v := eval vm_compute in (DPC.y c2) in
                    match v with Some ?a => exact a end) : list (list float)).
  assert (Ey : DPC.y c2 = Some ys) by (vm_compute; reflexivity).
  exists c, ys. refine (conj _ (conj Ey (conj _ _))).
  - vm_compute. reflexivity.
  - vm_compute. reflexivity.
  - change (DPC.save c2 "f.csv" = (Some ("f.csv", Csv.Header DPC.header
                      :: map (fun '(f, r) => Csv.Data (f :: r)) (combine [1; 2]%float ys)),
       Some IndexError)).
    rewrite (X4_cart_save_rows c2 "f.csv" ys Ey). vm_compute. reflexivity.
Defined.

Lemma X5_cart_solve_save_witness :
  exists c ys,
    DPC.init_time 1 0.3 = Ok c /\
    @DPC.solve taylor_libm c = (DPC.set_y c (Some ys), None) /\
    length (DPC.t c) = 4 /\ length (DPC.control_force c) = 3 /\
    snd (DPC.save (DPC.set_y c (Some ys)) "f.csv") = Some IndexError.
Proof.
  pose (c := ltac:(ok_value (DPC.init_time 1 0.3)) : DPC.DoublePendulumOnCart).
  assert (Hs : length (DPC.state c) = 6) by (vm_compute; reflexivity).
  pose (ys := ltac:(ok_value (@DPC.trajectory taylor_libm c)) : list (list float)).
  assert (Es : @DPC.solve taylor_libm c = (DPC.set_y c (Some ys), None))
    by (vm_compute; reflexivity).
  destruct (X5_cart_solve_save c (DPC.set_y c (Some ys)) "f.csv" Es Hs)
    as [ys' [_ [Hy [_ [_ Hsave]]]]].
  cbn [DPC.y DPC.set_y] in Hy. injection Hy as <-.
  exists c, ys. refine (conj _ (conj Es (conj _ (conj _ _)))).
  - vm_compute. reflexivity.
  - vm_compute. reflexivity.
  - vm_compute. reflexivity.
  - rewrite Hsave. vm_compute. reflexivity.
Defined.

Lemma X6_cart_solve_succeeds_witness :
  exists c,
    DPC.init_time 1 0.25 = Ok c /\
    DPC.t c <> [] /\
    forall tc, In tc (removelast (DPC.t c)) -> exists F, DPC.force_at c tc = Ok F.
Proof.
  pose (c := ltac:(ok_value (DPC.init_time 1 0.25)) : DPC.DoublePendulumOnCart).
  assert (Hs : length (DPC.state c) = 6) by (vm_compute; reflexivity).
  exists c. split; [vm_compute; reflexivity|].
  apply (proj1 (@X6_cart_solve_succeeds taylor_libm c Hs)).
  vm_compute. reflexivity.
Defined.

(** File names: [path + str(i+1) + EXT] determines [i]. *)
Lemma list_ascii_of_string_append (a b : String.string) :
  String.list_ascii_of_string (String.append a b) =
  String.list_ascii_of_string a ++ String.list_ascii_of_string b.
Proof.
  induction a as [|ch a IH]; [reflexivity|]. simpl. rewrite IH. reflexivity.
Qed.

Lemma to_uint_not_nil (n : nat) : Nat.to_uint n <> Decimal.Nil.
Proof.
  intros E. pose proof (DecimalNat.Unsigned.of_to n) as H. rewrite E in H.
  simpl in H. subst n. discriminate E.
Qed.

Lemma py_str_inj (a b : nat) : Script.py_str a = Script.py_str b -> a = b.
Proof.
  unfold Script.py_str. intros E.
  apply (f_equal DecimalString.NilZero.uint_of_string) in E.
  rewrite !DecimalString.NilZero.usu in E by apply to_uint_not_nil.
  injection E as E.
  rewrite <- (DecimalNat.Unsigned.of_to a), <- (DecimalNat.Unsigned.of_to b), E.
  reflexivity.
Qed.

Lemma filename_inj (path : String.string) (i j : nat) :
  Script.filename path i = Script.filename path j -> i = j.
Proof.
  unfold Script.filename. intros E.
  apply (f_equal String.list_ascii_of_string) in E.
  rewrite !list_ascii_of_string_append in E.
  apply app_inv_tail, app_inv_head in E.
  apply (f_equal String.string_of_list_ascii) in E.
  rewrite !String.string_of_list_ascii_of_string in E.
  apply py_str_inj in E. lia.
Qed.

Lemma NoDup_map_inj {A B} (f : A -> B) (l : list A) :
  (forall x y, f x = f y -> x = y) -> NoDup l -> NoDup (map f l).
Proof.
  intros Hf Hl. induction Hl as [|x l Hx Hl IH]; simpl; constructor; auto.
  intros Hin. apply in_map_iff in Hin as [y [Ey Hy]].
  apply Hf in Ey. subst y. contradiction.
Qed.

Lemma py_index_in_range {A} (l : list A) (k : Z) :
  (0 <= k < Z.of_nat (length l))%Z -> exists a, py_index l k = Ok a.
Proof.
  intros Hk. replace k with (Z.of_nat (Z.to_nat k)) by lia.
  rewrite py_index_nat. destruct (nth_error l (Z.to_nat k)) as [a|] eqn:E; [eauto|].
  apply nth_error_None in E. lia.
Qed.

(** Entry [i] of [np.repeat(a, k)] is [a[i // k]]. *)
Lemma nth_error_flat_map_repeat_div (l : list float) (k i : nat) :
  0 < k -> i < length l * k ->
  nth_error (flat_map (fun v => repeat v k) l) i = nth_error l (i / k).
Proof.
  intros Hk Hi.
  assert (Hj : i / k < length l) by (apply Nat.Div0.div_lt_upper_bound; lia).
  destruct (nth_error l (i / k)) as [v|] eqn:E;
    [|apply nth_error_None in E; lia].
  rewrite (Nat.div_mod_eq i k) at 1. rewrite (Nat.mul_comm k (i / k)).
  apply nth_error_flat_map_repeat; [exact E | apply Nat.mod_upper_bound; lia].
Qed.

(** [save] right after a [solve] that stored [ys], for each model. *)
Lemma dp_save_trajectory `{Libm} (p : DP.DoublePendulum) ys (filename : String.string) :
  DP.trajectory p = Ok ys -> length (DP.state p) = 4 ->
  DP.save (DP.set_y p (Some ys)) filename =
  (Some (filename, Csv.Header DP.header :: map Csv.Data ys), None).
Proof.
  intros Ht Hst. destruct (DP_facts.trajectory_shape p ys Ht) as [Hl _].
  unfold DP.save. cbn [DP.y DP.t DP.set_y].
  rewrite (dp_save_rows_seq ys 0 (length (DP.t p)) (dp_trajectory_rows p ys Ht Hst) ltac:(lia)).
  rewrite skipn_O, <- Hl, firstn_all, Nat.leb_refl. reflexivity.
Qed.

Lemma dpc_save_trajectory `{Libm} (c : DPC.DoublePendulumOnCart) ys (filename : String.string) :
  DPC.trajectory c = Ok ys -> length (DPC.control_force c) = length (DPC.t c) ->
  DPC.save (DPC.set_y c (Some ys)) filename =
  (Some (filename, Csv.Header DPC.header
          :: map (fun '(f, r) => Csv.Data (f :: r)) (combine (DPC.control_force c) ys)),
   None).
Proof.
  intros Ht Hcf. destruct (DPC_facts.cart_trajectory_shape c ys Ht) as [Hl _].
  unfold DPC.save. cbn [DPC.y DPC.t DPC.control_force DPC.set_y].
  rewrite (dpc_save_rows_seq (DPC.control_force c) ys 0 (length (DPC.t c)) ltac:(lia)).
  rewrite skipn_O, firstn_all2 by (rewrite length_combine; lia).
  replace (0 + length (DPC.t c) <=? Nat.min (length (DPC.control_force c)) (length ys))
    with true by (symmetry; apply Nat.leb_le; lia).
  reflexivity.
Qed.

Lemma dp_trajectory_ok `{Libm} (p : DP.DoublePendulum) :
  DP.t p <> [] -> length (DP.state p) = 4 -> (DP.L1 p =? 0)%float = false ->
  exists ys, DP.trajectory p = Ok ys.
Proof.
  intros Ht Hs HL. unfold DP.trajectory.
  destruct (DP_facts.euler_rows_total p (length (DP.t p) - 1) (DP.state p) Hs HL) as [rs Hrs].
  rewrite Hrs. destruct (DP.t p); [congruence|]. eexists. reflexivity.
Qed.

(** [save] once [open] succeeds, and when it raises. *)
Lemma dp_save_open_ok (open_error : String.string -> option exn) p name :
  open_error name = None -> DP.save_open open_error p name = DP.save p name.
Proof.
  intros E. unfold DP.save_open. rewrite E. destruct (DP.y p); reflexivity.
Qed.

Lemma dp_save_open_err (open_error : String.string -> option exn) p ys name e :
  DP.y p = Some ys -> open_error name = Some e ->
  DP.save_open open_error p name = (None, Some e).
Proof.
  intros Hy E. unfold DP.save_open. rewrite Hy, E. reflexivity.
Qed.

Lemma dpc_save_open_ok (open_error : String.string -> option exn) c name :
  open_error name = None -> DPC.save_open open_error c name = DPC.save c name.
Proof.
  intros E. unfold DPC.save_open. rewrite E. destruct (DPC.y c); reflexivity.
Qed.

Lemma dpc_save_open_err (open_error : String.string -> option exn) c ys name e :
  DPC.y c = Some ys -> open_error name = Some e ->
  DPC.save_open open_error c name = (None, Some e).
Proof.
  intros Hy E. unfold DPC.save_open. rewrite Hy, E. reflexivity.
Qed.

(** The loop of the [pendulum] branch, from any object whose grid is not
    empty and whose [L1] is not zero, when [open] succeeds on every name. *)
Lemma pendulum_loop_ok `{Libm} {PRng : Type} (random : PRng -> float * PRng)
  (open_error : String.string -> option exn) m :
  forall k p g, DP.t p <> [] -> (DP.L1 p =? 0)%float = false ->
  (forall i, k <= i < k + m ->
             open_error (Script.filename Script.pendulum_path i) = None) ->
  exists files, Script.pendulum_loop random open_error (seq k m) p g = (files, None) /\
    map fst files = map (Script.filename Script.pendulum_path) (seq k m) /\
    Forall (fun f => exists ys, length ys = length (DP.t p) /\
                       Forall (fun r => length r = 4) ys /\
                       snd f = Csv.Header DP.header :: map Csv.Data ys) files.
Proof.
  induction m as [|m IH]; intros k p g Ht HL Hop.
  - exists []. refine (conj eq_refl (conj eq_refl (Forall_nil _))).
  - cbn [seq Script.pendulum_loop].
    destruct (Script.py_uniform random g 0 360) as [th1 g1].
    destruct (Script.py_uniform random g1 0 360) as [th2 g2].
    destruct (Script.py_uniform random g2 (-180) 180) as [w1 g3].
    destruct (Script.py_uniform random g3 (-180) 180) as [w2 g4].
    set (p1 := DP.set_initial_conditions p th1 w1 th2 w2).
    assert (Hs1 : length (DP.state p1) = 4) by reflexivity.
    destruct (dp_trajectory_ok p1 Ht Hs1 HL) as [ys Htr].
    assert (Es : DP.solve p1 = (DP.set_y p1 (Some ys), None))
      by (unfold DP.solve; rewrite Htr; reflexivity).
    rewrite Es, (dp_save_open_ok open_error _ _ (Hop k ltac:(lia))),
      (dp_save_trajectory p1 ys _ Htr Hs1).
    destruct (IH (S k) (DP.set_y p1 (Some ys)) g4 Ht HL
                ltac:(intros i Hi; apply Hop; lia)) as [files [E1 [E2 E3]]].
    rewrite E1. exists ((Script.filename Script.pendulum_path k,
                         Csv.Header DP.header :: map Csv.Data ys) :: files).
    refine (conj eq_refl (conj _ _)).
    + simpl. f_equal. exact E2.
    + constructor; [|exact E3].
      destruct (DP_facts.trajectory_shape p1 ys Htr) as [Hl _].
      exists ys. refine (conj Hl (conj (dp_trajectory_rows p1 ys Htr Hs1) eq_refl)).
Qed.

(** When [open] raises on the first name, the loop stops there: the
    simulation is solved, no file is written, and the exception escapes. *)
Lemma pendulum_loop_open_err `{Libm} {PRng : Type} (random : PRng -> float * PRng)
  (open_error : String.string -> option exn) k m p g e :
  DP.t p <> [] -> (DP.L1 p =? 0)%float = false ->
  open_error (Script.filename Script.pendulum_path k) = Some e ->
  Script.pendulum_loop random open_error (seq k (S m)) p g = ([], Some e).
Proof.
  intros Ht HL Ho. cbn [seq Script.pendulum_loop].
  destruct (Script.py_uniform random g 0 360) as [th1 g1].
  destruct (Script.py_uniform random g1 0 360) as [th2 g2].
  destruct (Script.py_uniform random g2 (-180) 180) as [w1 g3].
  destruct (Script.py_uniform random g3 (-180) 180) as [w2 g4].
  set (p1 := DP.set_initial_conditions p th1 w1 th2 w2).
  assert (Hs1 : length (DP.state p1) = 4) by reflexivity.
  destruct (dp_trajectory_ok p1 Ht Hs1 HL) as [ys Htr].
  assert (Es : DP.solve p1 = (DP.set_y p1 (Some ys), None))
    by (unfold DP.solve; rewrite Htr; reflexivity).
  rewrite Es, (dp_save_open_err open_error (DP.set_y p1 (Some ys)) ys _ e eq_refl Ho).
  reflexivity.
Qed.

(** The default cart: a grid of 500 instants, [int(t_stop) = 5],
    [int(1/dt) = 100], and the force index [int(t*1/dt)] of each instant of
    the loop of [solve] lies in [0, 500). *)
Lemma cart_default_grid (c0 : DPC.DoublePendulumOnCart) :
  DPC.init_default = Ok c0 ->
  length (DPC.t c0) = 500 /\ py_int (DPC.t_stop c0) = Ok 5%Z /\
  (exists q, py_div 1 (DPC.dt c0) = Ok q /\ py_int q = Ok 100%Z) /\
  forall tc, In tc (removelast (DPC.t c0)) ->
    exists k, DPC.force_index c0 tc = Ok k /\ (0 <= k < 500)%Z.
Proof.
  intros H0.
  pose (c1 := ltac:(ok_value DPC.init_default) : DPC.DoublePendulumOnCart).
  assert (E : DPC.init_default = Ok c1) by (vm_compute; reflexivity).
  rewrite E in H0. injection H0 as <-.
  assert (B : forallb (fun tc => match DPC.force_index c1 tc with
                                 | Ok k => (0 <=? k)%Z && (k <? 500)%Z
                                 | Err _ => false end)
                      (removelast (DPC.t c1)) = true)
    by (vm_compute; reflexivity).
  refine (conj _ (conj _ (conj _ _))).
  - vm_compute. reflexivity.
  - vm_compute. reflexivity.
  - eexists. split; vm_compute; reflexivity.
  - intros tc Hin. rewrite forallb_forall in B. specialize (B tc Hin).
    destruct (DPC.force_index c1 tc) as [k|e]; [|discriminate].
    apply andb_true_iff in B as [B1 B2].
    exists k. split; [reflexivity|]. split; [apply Z.leb_le | apply Z.ltb_lt]; assumption.
Qed.

(** One pass of the body of the [pendulum_cart] loop, on an object with the
    grid and time parameters of the default one, when numpy's [uniform]
    returns as many samples as asked: the random force and [solve] raise
    nothing, and [save] writes the header and 500 rows. *)
Lemma cart_iteration_ok `{Libm} {NRng : Type}
  (np_uniform : NRng -> float -> float -> nat -> list float * NRng)
  (Hlen : forall ng lo hi n, length (fst (np_uniform ng lo hi n)) = n)
  (c0 : DPC.DoublePendulumOnCart) (H0 : DPC.init_default = Ok c0)
  (c : DPC.DoublePendulumOnCart) ng th1 w1 th2 w2 :
  DPC.t c = DPC.t c0 -> DPC.dt c = DPC.dt c0 -> DPC.t_stop c = DPC.t_stop c0 ->
  exists c2 ng' cf ys,
    DPC.set_random_control_force np_uniform
      (DPC.set_initial_conditions c th1 w1 th2 w2 0 0) (-10) 10 ng = (c2, ng', None) /\
    DPC.solve c2 = (DPC.set_y c2 (Some ys), None) /\
    DPC.t c2 = DPC.t c0 /\ DPC.dt c2 = DPC.dt c0 /\ DPC.t_stop c2 = DPC.t_stop c0 /\
    length cf = 500 /\
    (forall i j, i < 500 -> j < 500 -> i / 100 = j / 100 ->
                 nth_error cf i = nth_error cf j) /\
    length ys = 500 /\ Forall (fun r => length r = 6) ys /\
    nth_error ys 0 = Some (map deg2rad [th1; w1; th2; w2] ++ [0; 0]%float) /\
    forall name, DPC.save (DPC.set_y c2 (Some ys)) name =
      (Some (name, Csv.Header DPC.header
                   :: map (fun '(f, r) => Csv.Data (f :: r)) (combine cf ys)), None).
Proof.
  intros Ht Hdt Hts.
  destruct (cart_default_grid c0 H0) as [Hlt [Hn [[q [Hq Hk]] Hgrid]]].
  set (c1 := DPC.set_initial_conditions c th1 w1 th2 w2 0 0).
  destruct (np_uniform ng (-10)%float 10%float (Z.to_nat 5)) as [draws ng'] eqn:Hu.
  assert (Hd : length draws = 5)
    by (pose proof (Hlen ng (-10)%float 10%float (Z.to_nat 5)) as L;
        rewrite Hu in L; exact L).
  assert (Hn1 : py_int (DPC.t_stop c1) = Ok 5%Z)
    by (change (DPC.t_stop c1) with (DPC.t_stop c); rewrite Hts; exact Hn).
  assert (Hq1 : py_div 1 (DPC.dt c1) = Ok q)
    by (change (DPC.dt c1) with (DPC.dt c); rewrite Hdt; exact Hq).
  pose proof (set_random_ok np_uniform c1 (-10) 10 ng ng' 5 q 100 draws Hn1
                ltac:(lia) Hu Hq1 Hk ltac:(lia)) as Er.
  change (Z.to_nat 100) with 100 in Er.
  set (cf := flat_map (fun v => repeat v 100) draws) in Er.
  set (c2 := DPC.set_control_force (DPC.set_force_bounds c1 (-10) 10) cf) in Er.
  assert (Ht2 : DPC.t c2 = DPC.t c0) by exact Ht.
  assert (Hs2 : length (DPC.state c2) = 6) by reflexivity.
  assert (Hcf : length cf = 500)
    by (unfold cf; rewrite length_flat_map_repeat, Hd; reflexivity).
  assert (HF : forall tc, In tc (removelast (DPC.t c2)) ->
               exists F, DPC.force_at c2 tc = Ok F).
  { intros tc Hin. rewrite Ht2 in Hin.
    destruct (Hgrid tc Hin) as [kk [Hkk Hb]].
    unfold DPC.force_at.
    replace (DPC.force_index c2 tc) with (DPC.force_index c0 tc)
      by (unfold DPC.force_index; change (DPC.dt c2) with (DPC.dt c); rewrite Hdt; reflexivity).
    rewrite Hkk. cbn [bind]. apply py_index_in_range.
    change (DPC.control_force c2) with cf. rewrite Hcf. lia. }
  destruct (cart_euler_rows_ok c2 (removelast (DPC.t c2)) (DPC.state c2) Hs2 HF)
    as [rs Hrs].
  assert (Htr : DPC.trajectory c2 = Ok (DPC.state c2 :: rs)).
  { assert (Hne : DPC.t c2 <> [])
      by (rewrite Ht2; intros E'; rewrite E' in Hlt; discriminate).
    unfold DPC.trajectory. rewrite Hrs.
    destruct (DPC.t c2) eqn:E;
      [exfalso; apply Hne; first [exact E | reflexivity] | reflexivity]. }
  set (ys := DPC.state c2 :: rs) in Htr.
  assert (Es : DPC.solve c2 = (DPC.set_y c2 (Some ys), None))
    by (unfold DPC.solve; rewrite Htr; reflexivity).
  destruct (DPC_facts.cart_trajectory_shape c2 ys Htr) as [Hl [H0y _]].
  exists c2, ng', cf, ys.
  refine (conj Er (conj Es (conj Ht2 (conj Hdt (conj Hts (conj Hcf (conj _
            (conj _ (conj (cart_trajectory_rows c2 ys Htr Hs2) (conj H0y _)))))))))).
  - intros i j Hi Hj Hij. unfold cf.
    rewrite !nth_error_flat_map_repeat_div by (rewrite ?Hd; lia).
    rewrite Hij. reflexivity.
  - rewrite Hl, Ht2. exact Hlt.
  - intros name. apply dpc_save_trajectory; [exact Htr|].
    change (DPC.control_force c2) with cf. rewrite Hcf, Ht2, Hlt. reflexivity.
Qed.

(** The loop of the [pendulum_cart] branch, from any object with the grid
    and time parameters of the default one, when numpy's [uniform] returns
    as many samples as asked and [open] succeeds on every name. *)
Lemma cart_loop_ok `{Libm} {PRng NRng : Type} (random : PRng -> float * PRng)
  (np_uniform : NRng -> float -> float -> nat -> list float * NRng)
  (open_error : String.string -> option exn)
  (Hlen : forall ng lo hi n, length (fst (np_uniform ng lo hi n)) = n)
  (c0 : DPC.DoublePendulumOnCart) (H0 : DPC.init_default = Ok c0) m :
  forall k c g ng,
  DPC.t c = DPC.t c0 -> DPC.dt c = DPC.dt c0 -> DPC.t_stop c = DPC.t_stop c0 ->
  (forall i, k <= i < k + m -> open_error (Script.filename Script.cart_path i) = None) ->
  exists files,
    Script.cart_loop random np_uniform open_error (seq k m) c g ng = (files, None) /\
    map fst files = map (Script.filename Script.cart_path) (seq k m) /\
    Forall (fun f => exists cf ys s,
              length cf = 500 /\
              (forall i j, i < 500 -> j < 500 -> i / 100 = j / 100 ->
                           nth_error cf i = nth_error cf j) /\
              length ys = 500 /\ Forall (fun r => length r = 6) ys /\
              length s = 4 /\ nth_error ys 0 = Some (s ++ [0; 0]%float) /\
              snd f = Csv.Header DPC.header
                      :: map (fun '(f, r) => Csv.Data (f :: r)) (combine cf ys)) files.
Proof.
  induction m as [|m IH]; intros k c g ng Ht Hdt Hts Hop.
  - exists []. refine (conj eq_refl (conj eq_refl (Forall_nil _))).
  - cbn [seq Script.cart_loop].
    destruct (Script.py_uniform random g 0 360) as [th1 g1].
    destruct (Script.py_uniform random g1 0 360) as [th2 g2].
    destruct (Script.py_uniform random g2 (-180) 180) as [w1 g3].
    destruct (Script.py_uniform random g3 (-180) 180) as [w2 g4].
    destruct (cart_iteration_ok np_uniform Hlen c0 H0 c ng th1 w1 th2 w2 Ht Hdt Hts)
      as [c2 [ng' [cf [ys [Er [Es [Ht2 [Hdt2 [Hts2 [Hcf [Hblk [Hl [Hrows [Hy0 Hsave]]]]]]]]]]]]]].
    rewrite Er, Es, (dpc_save_open_ok open_error _ _ (Hop k ltac:(lia))), Hsave.
    destruct (IH (S k) (DPC.set_y c2 (Some ys)) g4 ng' Ht2 Hdt2 Hts2
                ltac:(intros i Hi; apply Hop; lia)) as [files [E1 [E2 E3]]].
    rewrite E1. eexists. refine (conj eq_refl (conj _ _)).
    + simpl. f_equal. exact E2.
    + constructor; [|exact E3].
      exists cf, ys, (map deg2rad [th1; w1; th2; w2]).
      exact (conj Hcf (conj Hblk (conj Hl (conj Hrows (conj eq_refl (conj Hy0 eq_refl)))))).
Qed.

(** When [open] raises on the first name, the [pendulum_cart] loop stops
    there with no file written. *)
Lemma cart_loop_open_err `{Libm} {PRng NRng : Type} (random : PRng -> float * PRng)
  (np_uniform : NRng -> float -> float -> nat -> list float * NRng)
  (open_error : String.string -> option exn)
  (Hlen : forall ng lo hi n, length (fst (np_uniform ng lo hi n)) = n)
  (c0 : DPC.DoublePendulumOnCart) (H0 : DPC.init_default = Ok c0) k m g ng e :
  open_error (Script.filename Script.cart_path k) = Some e ->
  Script.cart_loop random np_uniform open_error (seq k (S m)) c0 g ng = ([], Some e).
Proof.
  intros Ho. cbn [seq Script.cart_loop].
  destruct (Script.py_uniform random g 0 360) as [th1 g1].
  destruct (Script.py_uniform random g1 0 360) as [th2 g2].
  destruct (Script.py_uniform random g2 (-180) 180) as [w1 g3].
  destruct (Script.py_uniform random g3 (-180) 180) as [w2 g4].
  destruct (cart_iteration_ok np_uniform Hlen c0 H0 c0 ng th1 w1 th2 w2 eq_refl eq_refl eq_refl)
    as [c2 [ng' [cf [ys [Er [Es _]]]]]].
  rewrite Er, Es, (dpc_save_open_err open_error (DPC.set_y c2 (Some ys)) ys _ e eq_refl Ho).
  reflexivity.
Qed.

(** X7.  The [pendulum] branch of the dataset script, for
    [n_simulations = n], whatever [sin], [cos] and the random draws are.
    When [open] succeeds on every name (the directory
    [./dataset/double_pendulum/] exists and is writable) it raises nothing
    and writes [max(n, 0)] files, named
    [./dataset/double_pendulum/series_1.csv], ..., [series_n.csv] (pairwise
    distinct), each holding the header and 500 rows of four numbers.  The
    script creates no directory: when [open] raises on the first name
    (e.g. [FileNotFoundError] for a missing directory) and [n >= 1], the run
    stops with that exception and writes no file. *)
Theorem X7_run_pendulum `{Libm} {PRng : Type} (random : PRng -> float * PRng)
  (open_error : String.string -> option exn) (n : Z) (g : PRng) :
  ((forall i, i < Z.to_nat n ->
              open_error (Script.filename Script.pendulum_path i) = None) ->
   exists files, Script.run_pendulum random open_error n g = (files, None) /\
     map fst files = map (Script.filename Script.pendulum_path) (seq 0 (Z.to_nat n)) /\
     NoDup (map fst files) /\
     Forall (fun f => exists ys, length ys = 500 /\
                        Forall (fun r => length r = 4) ys /\
                        snd f = Csv.Header DP.header :: map Csv.Data ys) files) /\
  (forall e, (0 < n)%Z ->
   open_error (Script.filename Script.pendulum_path 0) = Some e ->
   Script.run_pendulum random open_error n g = ([], Some e)).
Proof.
  pose (p0 := ltac:(ok_value DP.init_default) : DP.DoublePendulum).
  assert (E : DP.init_default = Ok p0) by (vm_compute; reflexivity).
  assert (Ht : DP.t p0 <> []) by (vm_compute; discriminate).
  assert (HL : (DP.L1 p0 =? 0)%float = false) by (vm_compute; reflexivity).
  assert (Hl : length (DP.t p0) = 500) by (vm_compute; reflexivity).
  unfold Script.run_pendulum. rewrite E. split.
  - intros Hop.
    destruct (pendulum_loop_ok random open_error (Z.to_nat n) 0 p0 g Ht HL
                ltac:(intros i Hi; apply Hop; lia)) as [files [E1 [E2 E3]]].
    exists files. refine (conj E1 (conj E2 (conj _ _))).
    + rewrite E2. apply NoDup_map_inj; [apply filename_inj | apply seq_NoDup].
    + rewrite <- Hl. exact E3.
  - intros e Hn Ho. replace (Z.to_nat n) with (S (Z.to_nat n - 1)) by lia.
    exact (pendulum_loop_open_err random open_error 0 _ p0 g e Ht HL Ho).
Qed.

(** X8.  The [pendulum_cart] branch of the dataset script, for
    [n_simulations = n] and a numpy [uniform] that returns as many samples
    as asked, whatever [sin], [cos] and the random draws are.  When [open]
    succeeds on every name (the directory
    [./dataset/double_pendulum_on_cart/] exists and is writable) it raises
    nothing and writes [max(n, 0)] pairwise distinct files
    [./dataset/double_pendulum_on_cart/series_1.csv], ..., each holding the
    header and 500 rows [f, th1, w1, th2, w2, x, vx]: the force column is
    constant on each block of 100 consecutive rows, and the first row starts
    the cart at [x = 0] with [vx = 0].  When [open] raises on the first name
    and [n >= 1], the run stops with that exception and writes no file. *)
Theorem X8_run_cart `{Libm} {PRng NRng : Type} (random : PRng -> float * PRng)
  (np_uniform : NRng -> float -> float -> nat -> list float * NRng)
  (open_error : String.string -> option exn)
  (Hlen : forall ng lo hi m, length (fst (np_uniform ng lo hi m)) = m)
  (n : Z) (g : PRng) (ng : NRng) :
  ((forall i, i < Z.to_nat n ->
              open_error (Script.filename Script.cart_path i) = None) ->
   exists files, Script.run_cart random np_uniform open_error n g ng = (files, None) /\
     map fst files = map (Script.filename Script.cart_path) (seq 0 (Z.to_nat n)) /\
     NoDup (map fst files) /\
     Forall (fun f => exists cf ys s,
               length cf = 500 /\
               (forall i j, i < 500 -> j < 500 -> i / 100 = j / 100 ->
                            nth_error cf i = nth_error cf j) /\
               length ys = 500 /\ Forall (fun r => length r = 6) ys /\
               length s = 4 /\ nth_error ys 0 = Some (s ++ [0; 0]%float) /\
               snd f = Csv.Header DPC.header
                       :: map (fun '(f, r) => Csv.Data (f :: r)) (combine cf ys)) files) /\
  (forall e, (0 < n)%Z ->
   open_error (Script.filename Script.cart_path 0) = Some e ->
   Script.run_cart random np_uniform open_error n g ng = ([], Some e)).
Proof.
  pose (c0 := ltac:(ok_value DPC.init_default) : DPC.DoublePendulumOnCart).
  assert (E : DPC.init_default = Ok c0) by (vm_compute; reflexivity).
  unfold Script.run_cart. rewrite E. split.
  - intros Hop.
    destruct (cart_loop_ok random np_uniform open_error Hlen c0 E (Z.to_nat n) 0 c0 g ng
                eq_refl eq_refl eq_refl ltac:(intros i Hi; apply Hop; lia))
      as [files [E1 [E2 E3]]].
    exists files. refine (conj E1 (conj E2 (conj _ E3))).
    rewrite E2. apply NoDup_map_inj; [apply filename_inj | apply seq_NoDup].
  - intros e Hn Ho. replace (Z.to_nat n) with (S (Z.to_nat n - 1)) by lia.
    exact (cart_loop_open_err random np_uniform open_error Hlen c0 E 0 _ g ng e Ho).
Qed.

Lemma X7_run_pendulum_witness :
  (exists files,
     Script.run_pendulum (H := taylor_libm) (fun g : nat => (0.5%float, S g))
       (fun _ => None) 2 0 = (files, None) /\ length files = 2) /\
  Script.run_pendulum (H := taylor_libm) (fun g : nat => (0.5%float, S g))
    (fun _ => Some FileNotFoundError) 2 0 = ([], Some FileNotFoundError).
Proof.
  split.
  - destruct (proj1 (@X7_run_pendulum taylor_libm nat (fun g => (0.5%float, S g))
                       (fun _ => None) 2 0) (fun i _ => eq_refl))
      as [files [E1 [E2 _]]].
    exists files. split; [exact E1|].
    transitivity (length (map fst files)); [symmetry; apply length_map|].
    rewrite E2. reflexivity.
  - exact (proj2 (@X7_run_pendulum taylor_libm nat (fun g => (0.5%float, S g))
                    (fun _ => Some FileNotFoundError) 2 0)
                 FileNotFoundError ltac:(lia) eq_refl).
Defined.

Lemma X8_run_cart_witness :
  (exists files,
     Script.run_cart (H := taylor_libm) (fun g : nat => (0.5%float, S g)) const_uniform
       (fun _ => None) 2 0 0 = (files, None) /\ length files = 2) /\
  Script.run_cart (H := taylor_libm) (fun g : nat => (0.5%float, S g)) const_uniform
    (fun _ => Some FileNotFoundError) 2 0 0 = ([], Some FileNotFoundError).
Proof.
  split.
  - destruct (proj1 (@X8_run_cart taylor_libm nat nat (fun g => (0.5%float, S g))
                       const_uniform (fun _ => None)
                       (fun ng lo hi m => repeat_length lo m) 2 0 0) (fun i _ => eq_refl))
      as [files [E1 [E2 _]]].
    exists files. split; [exact E1|].
    transitivity (length (map fst files)); [symmetry; apply length_map|].
    rewrite E2. reflexivity.
  - exact (proj2 (@X8_run_cart taylor_libm nat nat (fun g => (0.5%float, S g))
                    const_uniform (fun _ => Some FileNotFoundError)
                    (fun ng lo hi m => repeat_length lo m) 2 0 0)
                 FileNotFoundError ltac:(lia) eq_refl).
Defined.

(** Extending the grid with the same step. *)
Lemma firstn_seq_le (s a b : nat) : a <= b -> firstn a (seq s b) = seq s a.
Proof.
  revert s b. induction a as [|a IH]; intros s [|b] Hab; try reflexivity; [lia|].
  simpl. f_equal. apply IH. lia.
Qed.

(** [np.arange(0, stop, step)] with a larger [stop] and the same [step]
    starts with the shorter grid. *)
Lemma arange_prefix (s s' d : float) (g g' : list float) :
  arange s d = Ok g -> arange s' d = Ok g' -> length g <= length g' ->
  firstn (length g) g' = g.
Proof.
  unfold arange. intros H H' Hl.
  apply bind_Ok in H as [q [_ H]]. apply bind_Ok in H as [n [_ H]]. injection H as <-.
  apply bind_Ok in H' as [q' [_ H']]. apply bind_Ok in H' as [n' [_ H']]. injection H' as <-.
  rewrite !length_map, !length_seq in *.
  rewrite firstn_map, firstn_seq_le by exact Hl. reflexivity.
Qed.

Lemma dp_euler_rows_prefix `{Libm} (p : DP.DoublePendulum) n m prev rs rs' :
  n <= m -> DP.euler_rows p n prev = Ok rs -> DP.euler_rows p m prev = Ok rs' ->
  firstn n rs' = rs.
Proof.
  revert m prev rs rs'. induction n as [|n IH]; intros m prev rs rs' Hnm Hr Hr'.
  - simpl in Hr. injection Hr as <-. reflexivity.
  - destruct m as [|m]; [lia|]. simpl in Hr, Hr'.
    apply bind_Ok in Hr as [d [Hd Hr]]. apply bind_Ok in Hr as [r1 [Hr1 E]].
    injection E as <-.
    rewrite Hd in Hr'. cbn [bind] in Hr'.
    apply bind_Ok in Hr' as [r1' [Hr1' E']]. injection E' as <-.
    simpl. f_equal. exact (IH m _ _ _ ltac:(lia) Hr1 Hr1').
Qed.

(** [set_time_parameters] with the step unchanged leaves the pendulum's Euler
    loop as it is. *)
Lemma dp_euler_rows_set_time `{Libm} (p : DP.DoublePendulum) ts g n prev :
  DP.euler_rows (DP.mkDP (DP.L1 p) (DP.L2 p) (DP.M1 p) (DP.M2 p) (DP.G p)
                   (DP.th1 p) (DP.w1 p) (DP.th2 p) (DP.w2 p) ts (DP.dt p) g
                   (DP.state p) (DP.y p)) n prev
  = DP.euler_rows p n prev.
Proof.
  revert prev. induction n as [|n IH]; intros prev; [reflexivity|].
  cbn [DP.euler_rows].
  change (DP.derivs (DP.mkDP (DP.L1 p) (DP.L2 p) (DP.M1 p) (DP.M2 p) (DP.G p)
            (DP.th1 p) (DP.w1 p) (DP.th2 p) (DP.w2 p) ts (DP.dt p) g
            (DP.state p) (DP.y p)) prev) with (DP.derivs p prev).
  destruct (DP.derivs p prev); [|reflexivity]. cbn [bind DP.dt]. rewrite IH. reflexivity.
Qed.

Lemma cart_euler_rows_prefix `{Libm} (c : DPC.DoublePendulumOnCart) ts ts' prev rs rs' :
  firstn (length ts) ts' = ts ->
  DPC.euler_rows c ts prev = Ok rs -> DPC.euler_rows c ts' prev = Ok rs' ->
  firstn (length ts) rs' = rs.
Proof.
  revert ts' prev rs rs'. induction ts as [|t0 ts IH]; intros ts' prev rs rs' Hts Hr Hr'.
  - simpl in Hr. injection Hr as <-. reflexivity.
  - destruct ts' as [|t0' ts']; [discriminate|].
    simpl in Hts. injection Hts as <- Hts.
    simpl in Hr, Hr'.
    apply bind_Ok in Hr as [d [Hd Hr]]. apply bind_Ok in Hr as [r1 [Hr1 E]].
    injection E as <-.
    rewrite Hd in Hr'. cbn [bind] in Hr'.
    apply bind_Ok in Hr' as [r1' [Hr1' E']]. injection E' as <-.
    simpl. f_equal. eapply IH; eauto.
Qed.

Lemma cart_euler_rows_set_time `{Libm} (c : DPC.DoublePendulumOnCart) ts g tcs prev :
  DPC.euler_rows (DPC.set_time c ts (DPC.dt c) g) tcs prev = DPC.euler_rows c tcs prev.
Proof.
  revert prev. induction tcs as [|t0 tcs IH]; intros prev; [reflexivity|].
  cbn [DPC.euler_rows].
  change (DPC.derivs (DPC.set_time c ts (DPC.dt c) g) prev t0) with (DPC.derivs c prev t0).
  change (DPC.clamp (DPC.set_time c ts (DPC.dt c) g)) with (DPC.clamp c).
  change (DPC.dt (DPC.set_time c ts (DPC.dt c) g)) with (DPC.dt c).
  destruct (DPC.derivs c prev t0); [|reflexivity]. cbn [bind]. rewrite IH. reflexivity.
Qed.

(** X9.  Setting a longer [t_stop] with the same [dt] and solving again
    extends the pendulum's trajectory: the rows of the earlier solve are the
    first rows of the new one. *)
Theorem X9_pendulum_extend_time `{Libm} (p p' : DP.DoublePendulum) ts ys ys' :
  DP.set_time_parameters p ts (DP.dt p) = (p', None) ->
  length (DP.t p) <= length (DP.t p') ->
  DP.trajectory p = Ok ys -> DP.trajectory p' = Ok ys' ->
  firstn (length ys) ys' = ys.
Proof.
  intros Hs Hl Hy Hy'.
  unfold DP.set_time_parameters in Hs.
  destruct (arange ts (DP.dt p)) as [g|e]; [|discriminate]. injection Hs as <-.
  destruct (DP_facts.trajectory_shape p ys Hy) as [Hly [_ [rs [-> Hrs]]]].
  unfold DP.trajectory in Hy'. cbn [DP.t DP.state] in Hy', Hl.
  destruct g as [|g0 gs]; [discriminate|].
  apply bind_Ok in Hy' as [rs' [Hrs' E]]. injection E as <-.
  rewrite dp_euler_rows_set_time in Hrs'.
  pose proof (DP_facts.euler_rows_length p _ _ _ Hrs) as Hlr.
  simpl. f_equal. rewrite Hlr.
  eapply dp_euler_rows_prefix; [|exact Hrs | exact Hrs']. lia.
Qed.

(** X10.  For a cart whose grid is [np.arange(0, t_stop, dt)], setting a
    longer [t_stop] with the same [dt] (the control force is kept) and solving
    again extends the trajectory: the rows of the earlier solve are the
    first rows of the new one. *)
Theorem X10_cart_extend_time `{Libm} (c c' : DPC.DoublePendulumOnCart) ts ys ys' :
  arange (DPC.t_stop c) (DPC.dt c) = Ok (DPC.t c) ->
  DPC.set_time_parameters c ts (DPC.dt c) = (c', None) ->
  length (DPC.t c) <= length (DPC.t c') ->
  DPC.trajectory c = Ok ys -> DPC.trajectory c' = Ok ys' ->
  firstn (length ys) ys' = ys.
Proof.
  intros Ha Hs Hl Hy Hy'.
  unfold DPC.set_time_parameters in Hs.
  destruct (arange ts (DPC.dt c)) as [g|e] eqn:Hg; [|discriminate]. injection Hs as <-.
  cbn [DPC.t DPC.set_time] in Hl.
  pose proof (arange_prefix _ _ _ _ _ Ha Hg Hl) as Hpre.
  destruct (DPC_facts.cart_trajectory_shape c ys Hy) as [Hly [_ [rs [-> Hrs]]]].
  destruct (DPC_facts.cart_trajectory_shape _ ys' Hy') as [_ [_ [rs' [-> Hrs']]]].
  rewrite cart_euler_rows_set_time in Hrs'. cbn [DPC.t DPC.set_time DPC.state] in Hrs' |- *.
  assert (Hpre' : firstn (length (removelast (DPC.t c))) (removelast g)
                  = removelast (DPC.t c)).
  { assert (Hlt : 1 <= length (DPC.t c)) by (rewrite <- Hly; simpl; lia).
    rewrite length_removelast, firstn_removelast by lia.
    transitivity (firstn (length (DPC.t c) - 1) (firstn (length (DPC.t c)) g)).
    - rewrite firstn_firstn. f_equal. lia.
    - rewrite Hpre, removelast_firstn_len. f_equal. lia. }
  pose proof (DPC_facts.cart_euler_rows_length c _ _ _ Hrs) as Hlr.
  simpl. f_equal. rewrite Hlr.
  eapply cart_euler_rows_prefix; [exact Hpre' | exact Hrs | exact Hrs'].
Qed.

Lemma X9_pendulum_extend_time_witness :
  exists p p' ys ys',
    DP.init 1 1 1 1 9.8 120 0 (-10) 0 1 0.25 = Ok p /\
    DP.set_time_parameters p 2 (DP.dt p) = (p', None) /\
    @DP.trajectory taylor_libm p = Ok ys /\ @DP.trajectory taylor_libm p' = Ok ys' /\
    length ys = 4 /\ length ys' = 8 /\ firstn 4 ys' = ys.
Proof.
  pose (p := ltac:(ok_value (DP.init 1 1 1 1 9.8 120 0 (-10) 0 1 0.25)) : DP.DoublePendulum).
  pose (p' := fst (DP.set_time_parameters p 2 (DP.dt p))).
  assert (Hs : DP.set_time_parameters p 2 (DP.dt p) = (p', None)) by (vm_compute; reflexivity).
  assert (Hl : length (DP.t p) <= length (DP.t p')) by (vm_compute; lia).
  pose (ys := ltac:(ok_value (@DP.trajectory taylor_libm p)) : list (list float)).
  pose (ys' := ltac:(ok_value (@DP.trajectory taylor_libm p')) : list (list float)).
  assert (Hy : @DP.trajectory taylor_libm p = Ok ys) by (vm_compute; reflexivity).
  assert (Hy' : @DP.trajectory taylor_libm p' = Ok ys') by (vm_compute; reflexivity).
  assert (Hly : length ys = 4) by (vm_compute; reflexivity).
  exists p, p', ys, ys'.
  refine (conj _ (conj Hs (conj Hy (conj Hy' (conj Hly (conj _ _)))))).
  - vm_compute. reflexivity.
  - vm_compute. reflexivity.
  - rewrite <- Hly. exact (X9_pendulum_extend_time p p' 2 ys ys' Hs Hl Hy Hy').
Defined.

Lemma X10_cart_extend_time_witness :
  exists c0 c c' ys ys',
    DPC.init_time 2 0.25 = Ok c0 /\
    DPC.set_time_parameters c0 1 0.25 = (c, None) /\
    DPC.set_time_parameters c 2 (DPC.dt c) = (c', None) /\
    @DPC.trajectory taylor_libm c = Ok ys /\ @DPC.trajectory taylor_libm c' = Ok ys' /\
    length ys = 4 /\ length ys' = 8 /\ firstn 4 ys' = ys.
Proof.
  pose (c0 := ltac:(ok_value (DPC.init_time 2 0.25)) : DPC.DoublePendulumOnCart).
  pose (c := fst (DPC.set_time_parameters c0 1 0.25)).
  pose (c' := fst (DPC.set_time_parameters c 2 (DPC.dt c))).
  assert (Hc : DPC.set_time_parameters c0 1 0.25 = (c, None)) by (vm_compute; reflexivity).
  assert (Hs : DPC.set_time_parameters c 2 (DPC.dt c) = (c', None)) by (vm_compute; reflexivity).
  assert (Ha : arange (DPC.t_stop c) (DPC.dt c) = Ok (DPC.t c)) by (vm_compute; reflexivity).
  assert (Hl : length (DPC.t c) <= length (DPC.t c')) by (vm_compute; lia).
  pose (ys := ltac:(ok_value (@DPC.trajectory taylor_libm c)) : list (list float)).
  pose (ys' := ltac:(ok_value (@DPC.trajectory taylor_libm c')) : list (list float)).
  assert (Hy : @DPC.trajectory taylor_libm c = Ok ys) by (vm_compute; reflexivity).
  assert (Hy' : @DPC.trajectory taylor_libm c' = Ok ys') by (vm_compute; reflexivity).
  assert (Hly : length ys = 4) by (vm_compute; reflexivity).
  exists c0, c, c', ys, ys'.
  refine (conj _ (conj Hc (conj Hs (conj Hy (conj Hy' (conj Hly (conj _ _))))))).
  - vm_compute. reflexivity.
  - vm_compute. reflexivity.
  - rewrite <- Hly. exact (X10_cart_extend_time c c' 2 ys ys' Ha Hs Hl Hy Hy').
Defined.

Lemma py_index_nil {A} (k : Z) : py_index (@nil A) k = Err IndexError.
Proof.
  unfold py_index. rewrite nth_error_nil. destruct (_ && _)%bool; reflexivity.
Qed.

(** With no control force at all, the cart's derivative raises at every
    instant. *)
Lemma cart_derivs_no_force `{Libm} (c : DPC.DoublePendulumOnCart) s tc :
  DPC.control_force c = [] -> exists e, DPC.derivs c s tc = Err e.
Proof.
  intros Hcf.
  destruct s as [|a0 [|a1 [|a2 [|a3 [|a4 [|a5 [|]]]]]]]; try (eexists; reflexivity).
  unfold DPC.derivs, DPC.force_at. rewrite Hcf.
  destruct (DPC.force_index c tc) as [k|e]; cbn [bind]; [|eexists; reflexivity].
  rewrite py_index_nil. eexists. reflexivity.
Qed.

Lemma cart_euler_rows_head_err `{Libm} (c : DPC.DoublePendulumOnCart) t0 ts prev e :
  DPC.derivs c prev t0 = Err e -> DPC.euler_rows c (t0 :: ts) prev = Err e.
Proof. intros He. simpl. rewrite He. reflexivity. Qed.

(** X11.  When [int(t_stop)] is 0 (a [t_stop] under one second),
    [set_random_control_force] draws no sample and stores an empty control
    force, after which [solve] raises on any grid of at least two
    instants. *)
Theorem X11_cart_short_random_force `{Libm} {Rng : Type}
  (uniform : Rng -> float -> float -> nat -> list float * Rng)
  (Hlen : forall g lo hi n, length (fst (uniform g lo hi n)) = n)
  (c c' : DPC.DoublePendulumOnCart) lo hi (g g' : Rng) :
  DPC.set_random_control_force uniform c lo hi g = (c', g', None) ->
  py_int (DPC.t_stop c) = Ok 0%Z ->
  DPC.control_force c' = [] /\
  (2 <= length (DPC.t c') -> snd (DPC.solve c') <> None).
Proof.
  intros Hs Hn.
  destruct (set_random_inv uniform c c' lo hi g g' Hs)
    as [n [q [k [draws [Hn' [_ [Hu [_ [_ [_ ->]]]]]]]]]].
  rewrite Hn in Hn'. injection Hn' as <-.
  assert (Hd : draws = []).
  { pose proof (Hlen g lo hi (Z.to_nat 0)) as L. rewrite Hu in L.
    destruct draws; [reflexivity | discriminate]. }
  subst draws. split; [reflexivity|].
  intros H2. unfold DPC.solve, DPC.trajectory.
  set (c2 := DPC.set_control_force (DPC.set_force_bounds c lo hi)
                (flat_map (fun v => repeat v (Z.to_nat k)) [])).
  assert (H2' : 2 <= length (DPC.t c2)) by exact H2.
  destruct (DPC.t c2) as [|t0 [|t1 ts]] eqn:Et;
    [simpl in H2'; lia | simpl in H2'; lia |].
  - change (removelast (t0 :: t1 :: ts)) with (t0 :: removelast (t1 :: ts)).
    destruct (cart_derivs_no_force c2 (DPC.state c2) t0 eq_refl) as [e He].
    rewrite (cart_euler_rows_head_err c2 t0 (removelast (t1 :: ts)) _ e He). cbn [bind snd]. discriminate.
Qed.

Lemma X11_cart_short_random_force_witness :
  exists c c',
    DPC.init_time 0.5 0.1 = Ok c /\ length (DPC.t c) = 5 /\
    DPC.set_random_control_force const_uniform c (-10) 10 0 = (c', 1, None) /\
    DPC.control_force c' = [] /\
    snd (@DPC.solve taylor_libm c') <> None.
Proof.
  pose (c := ltac:(ok_value (DPC.init_time 0.5 0.1)) : DPC.DoublePendulumOnCart).
  pose (c' := fst (fst (DPC.set_random_control_force const_uniform c (-10) 10 0))).
  assert (Hs : DPC.set_random_control_force const_uniform c (-10) 10 0 = (c', 1, None))
    by (vm_compute; reflexivity).
  assert (Hn : py_int (DPC.t_stop c) = Ok 0%Z) by (vm_compute; reflexivity).
  assert (Hl : 2 <= length (DPC.t c')) by (vm_compute; lia).
  destruct (@X11_cart_short_random_force taylor_libm nat const_uniform
              (fun g lo hi n => repeat_length lo n) c c' (-10) 10 0 1 Hs Hn) as [Hcf Hsolve].
  exists c, c'. refine (conj _ (conj _ (conj Hs (conj Hcf (Hsolve Hl))))).
  - vm_compute. reflexivity.
  - vm_compute. reflexivity.
Defined.
